(** * voice-ai-server: orchestration and resilience layer

    A shallow embedding of the conversation orchestration code of the
    voice server and the properties its specification states about it:

    - utils/retry.ts            [Retry]: [withRetry], [calculateDelay]
    - utils/circuit-breaker.ts  [Circuit]: [CircuitBreaker], the registry
    - openai.ts                 [OpenAI]: [streamLLMResponse]
    - voice-session/index.ts, audio-handler.ts, end-handler.ts,
      issue-handler.ts, types.ts
                                [VoiceSession]: the segmenter, the pipeline
                                run, [end()] and the end handler

    Conventions.
    - JavaScript strings are [string]; [trim] and [toLowerCase] treat the
      ASCII range only.
    - Millisecond clocks and counters are [Z]; back-off delays, which the
      source computes on doubles, are exact rationals [Q].
    - Asynchronous code is modelled at its atomic segments: what runs
      between two [await]s is one function on the state, and the event
      loop is an explicit list of events.
    - Calls on collaborators (synthesis, transcription, transport,
      recorder, cost tracker) are recorded in a trace, in order.
    - Not modelled: [start()], the duration-limit handlers, caller
      verification and the prompt texts; observers that only log. *)

From Stdlib Require Import ZArith QArith Qminmax Qround List String Ascii Bool Lia Lqa Arith.
Import ListNotations.

Open Scope string_scope.
Open Scope Z_scope.

(* ===================================================================== *)
(** ** JavaScript string primitives used by the sources                   *)
(* ===================================================================== *)

Module JsString.

(** White space recognised by [String.prototype.trim] in the ASCII range:
    TAB, LF, VT, FF, CR and SPACE. *)
Definition isWhiteSpace (c : ascii) : bool :=
  let n := nat_of_ascii c in
  ((9 <=? n) && (n <=? 13))%nat || (n =? 32)%nat.

Fixpoint trimStart (s : string) : string :=
  match s with
  | EmptyString => EmptyString
  | String c r => if isWhiteSpace c then trimStart r else s
  end.

Fixpoint rev_onto (s acc : string) : string :=
  match s with
  | EmptyString => acc
  | String c r => rev_onto r (String c acc)
  end.

Definition reverse (s : string) : string := rev_onto s EmptyString.

Definition trimEnd (s : string) : string := reverse (trimStart (reverse s)).

Definition trim (s : string) : string := trimEnd (trimStart s).

(** JavaScript truthiness of a string: the empty string is falsy. *)
Definition truthy (s : string) : bool :=
  match s with EmptyString => false | String _ _ => true end.

Fixpoint startsWith (s p : string) : bool :=
  match p, s with
  | EmptyString, _ => true
  | String _ _, EmptyString => false
  | String a p', String b s' => Ascii.eqb a b && startsWith s' p'
  end.

Definition endsWith (s x : string) : bool :=
  startsWith (reverse s) (reverse x).

(** [s.includes(x)]: [x] occurs in [s] as a contiguous substring. *)
Fixpoint includes (s x : string) : bool :=
  startsWith s x ||
  match s with
  | EmptyString => false
  | String _ s' => includes s' x
  end.

Definition lowerChar (c : ascii) : ascii :=
  let n := nat_of_ascii c in
  if ((65 <=? n) && (n <=? 90))%nat then ascii_of_nat (n + 32) else c.

Fixpoint toLowerCase (s : string) : string :=
  match s with
  | EmptyString => EmptyString
  | String c r => String (lowerChar c) (toLowerCase r)
  end.

(** [xs.join(sep)] *)
Fixpoint join (sep : string) (xs : list string) : string :=
  match xs with
  | [] => ""
  | [x] => x
  | x :: rest => x ++ sep ++ join sep rest
  end.

(** [xs.some(p)] *)
Definition some {A} (p : A -> bool) (xs : list A) : bool := existsb p xs.

End JsString.

(* ===================================================================== *)
(** ** Thrown values and results of asynchronous calls                    *)
(* ===================================================================== *)

(** A JavaScript [Error] as the retry classifier reads it: message, name
    and the optional [code] property. *)
Record Error := mkError {
  message : string;
  name : string;
  code : option string
}.

(** What a [throw] can carry in the modelled code: an [Error] object or
    [null] ([withRetry] throws its [lastError] variable, initially null). *)
Inductive thrown :=
| ErrorObj (e : Error)
| Null.

(** Outcome of awaiting a promise: resolved with a value or rejected. *)
Inductive result (T : Type) :=
| Returned (v : T)
| Thrown (e : thrown).
Arguments Returned {T} v.
Arguments Thrown {T} e.

(** [new Error(msg)] *)
Definition newError (msg : string) : Error := mkError msg "Error" None.

(** The operations of the host the resilience layer relies on:
    [Date.now()], [setTimeout]-based [sleep] and [Math.random()]. *)
Class Runtime (W : Type) := {
  now : W -> Z;
  sleep : Q -> W -> W;
  random : W -> Q * W
}.

(* ===================================================================== *)
(** ** utils/retry.ts                                                     *)
(* ===================================================================== *)

Module Retry.

(** [RetryOptions].  The optional [onRetry] observer is not a field of
    the model: it receives [(attempt + 1, lastError, delayMs)] and every
    caller in the repository only logs them. *)
Record RetryOptions := {
  maxRetries : Z;
  baseDelayMs : Q;
  maxDelayMs : Q;
  backoffMultiplier : Q;
  retryableErrors : option (list string)
}.

(** [Partial<RetryOptions>]: every field may be absent. *)
Record PartialRetryOptions := {
  opt_maxRetries : option Z;
  opt_baseDelayMs : option Q;
  opt_maxDelayMs : option Q;
  opt_backoffMultiplier : option Q;
  opt_retryableErrors : option (list string)
}.

Definition noOverrides : PartialRetryOptions :=
  {| opt_maxRetries := None; opt_baseDelayMs := None; opt_maxDelayMs := None;
     opt_backoffMultiplier := None; opt_retryableErrors := None |}.

Definition DEFAULT_OPTIONS : RetryOptions :=
  {| maxRetries := 3;
     baseDelayMs := 500;
     maxDelayMs := 10000;
     backoffMultiplier := 2;
     retryableErrors := Some
       [ "ECONNRESET"; "ETIMEDOUT"; "ECONNREFUSED"; "EPIPE"; "EHOSTUNREACH";
         "EAI_AGAIN"; "socket hang up"; "network error"; "timeout";
         "429"; "502"; "503"; "504" ] |}.

Definition override {A} (o : option A) (d : A) : A :=
  match o with Some v => v | None => d end.

(** [{ ...defaults, ...options }] *)
Definition spread (defaults : RetryOptions) (options : PartialRetryOptions)
  : RetryOptions :=
  {| maxRetries := override (opt_maxRetries options) (maxRetries defaults);
     baseDelayMs := override (opt_baseDelayMs options) (baseDelayMs defaults);
     maxDelayMs := override (opt_maxDelayMs options) (maxDelayMs defaults);
     backoffMultiplier :=
       override (opt_backoffMultiplier options) (backoffMultiplier defaults);
     retryableErrors :=
       match opt_retryableErrors options with
       | Some l => Some l
       | None => retryableErrors defaults
       end |}.

(** [`${error.message} ${error.name} ${error.code || ''}`.toLowerCase()] *)
Definition errorString (error : Error) : string :=
  JsString.toLowerCase
    (message error ++ " " ++ name error ++ " " ++
     match code error with Some c => c | None => "" end).

Definition isRetryable (error : Error) (retryableErrors : list string) : bool :=
  JsString.some
    (fun retryable =>
       JsString.includes (errorString error) (JsString.toLowerCase retryable))
    retryableErrors.

(** [Math.pow(x, n)] at a loop counter [n]. *)
Fixpoint pow (x : Q) (n : nat) : Q :=
  match n with
  | O => 1
  | S n' => (x * pow x n')%Q
  end.

(** [calculateDelay(attempt, options)], with the value [rnd] returned by
    [Math.random()] made explicit. *)
Definition calculateDelay (attempt : nat) (options : RetryOptions) (rnd : Q) : Q :=
  let exponentialDelay := (baseDelayMs options * pow (backoffMultiplier options) attempt)%Q in
  let jitter := (rnd * (3 # 10) * exponentialDelay)%Q in
  Qmin (exponentialDelay + jitter)%Q (maxDelayMs options).

(** The error raised when [isRetryable] reads [.message] of [null]. *)
Definition TypeError_null : Error :=
  mkError "Cannot read properties of null (reading 'message')" "TypeError" None.

Section WithRuntime.
Context {W : Type} {RT : Runtime W} {T : Type}.

(** The [for (attempt = 0; attempt <= opts.maxRetries; attempt++)] loop.
    [fuel] is the number of iterations the loop condition still allows. *)
Fixpoint retryLoop (fn : W -> result T * W) (opts : RetryOptions)
         (fuel : nat) (attempt : nat) (lastError : thrown) (w : W)
  : result T * W :=
  match fuel with
  | O => (Thrown lastError, w)
  | S fuel' =>
      match fn w with
      | (Returned v, w1) => (Returned v, w1)
      | (Thrown error, w1) =>
          if Z.of_nat attempt =? maxRetries opts then (Thrown error, w1)
          else
            match error with
            | Null => (Thrown (ErrorObj TypeError_null), w1)
            | ErrorObj e =>
                if negb (isRetryable e
                           (match retryableErrors opts with
                            | Some l => l | None => [] end))
                then (Thrown error, w1)
                else
                  let (rnd, w2) := random w1 in
                  let delayMs := calculateDelay attempt opts rnd in
                  retryLoop fn opts fuel' (S attempt) error (sleep delayMs w2)
            end
      end
  end.

Definition withRetry (fn : W -> result T * W) (options : PartialRetryOptions)
           (w : W) : result T * W :=
  let opts := spread DEFAULT_OPTIONS options in
  retryLoop fn opts (Z.to_nat (maxRetries opts + 1)) 0 Null w.

End WithRuntime.

(** *** Functions observed by their call number

    The behaviour of an arbitrary stateful [fn]: its [n]-th invocation
    (counted from 0) acts on the world as [behaviour n].  The call counter
    sits next to the world, so the number of invocations made by a caller
    can be read off the final state. *)
Section Observed.
Context {W : Type} {RT : Runtime W} {T : Type}.


End Observed.



End Retry.

(* ===================================================================== *)
(** ** utils/circuit-breaker.ts                                           *)
(* ===================================================================== *)

Module Circuit.

Inductive CircuitState := CLOSED | OPEN | HALF_OPEN.

Definition CircuitState_eqb (a b : CircuitState) : bool :=
  match a, b with
  | CLOSED, CLOSED | OPEN, OPEN | HALF_OPEN, HALF_OPEN => true
  | _, _ => false
  end.

(** [CircuitBreakerOptions]; the optional observers [onStateChange] and
    [onFailure] only log in every caller and are left out. *)
Record CircuitBreakerOptions := {
  cname : string;
  failureThreshold : Z;
  successThreshold : Z;
  timeout : Z
}.

(** [Partial<CircuitBreakerOptions>] without the name. *)
Record PartialOptions := {
  opt_failureThreshold : option Z;
  opt_successThreshold : option Z;
  opt_timeout : option Z
}.

Definition noOverrides : PartialOptions :=
  {| opt_failureThreshold := None; opt_successThreshold := None;
     opt_timeout := None |}.

(** [DEFAULT_OPTIONS : Omit<CircuitBreakerOptions, 'name'>] *)
Definition DEFAULT_OPTIONS : PartialOptions :=
  {| opt_failureThreshold := Some 5;
     opt_successThreshold := Some 2;
     opt_timeout := Some 30000 |}.

Definition orElse {A} (o d : option A) : option A :=
  match o with Some v => Some v | None => d end.

(** [{ ...a, ...b }] on the optional fields: [b] wins where present. *)
Definition spread (a b : PartialOptions) : PartialOptions :=
  {| opt_failureThreshold := orElse (opt_failureThreshold b) (opt_failureThreshold a);
     opt_successThreshold := orElse (opt_successThreshold b) (opt_successThreshold a);
     opt_timeout := orElse (opt_timeout b) (opt_timeout a) |}.

(** The object handed to the constructor always has the three numeric
    fields once the defaults are spread in; [0] stands for a field that
    would still be [undefined]. *)
Definition complete (nm : string) (p : PartialOptions) : CircuitBreakerOptions :=
  {| cname := nm;
     failureThreshold := match opt_failureThreshold p with Some v => v | None => 0 end;
     successThreshold := match opt_successThreshold p with Some v => v | None => 0 end;
     timeout := match opt_timeout p with Some v => v | None => 0 end |}.

Definition partialOf (o : CircuitBreakerOptions) : PartialOptions :=
  {| opt_failureThreshold := Some (failureThreshold o);
     opt_successThreshold := Some (successThreshold o);
     opt_timeout := Some (timeout o) |}.

(** The private fields of a [CircuitBreaker] instance. *)
Record CircuitBreaker := {
  state : CircuitState;
  failures : Z;
  successes : Z;
  lastFailureTime : Z;
  options : CircuitBreakerOptions
}.

(** [new CircuitBreaker(options)]: [{ ...DEFAULT_OPTIONS, ...options }] *)
Definition new (opts : CircuitBreakerOptions) : CircuitBreaker :=
  {| state := CLOSED; failures := 0; successes := 0; lastFailureTime := 0;
     options := complete (cname opts) (spread DEFAULT_OPTIONS (partialOf opts)) |}.

(** [transitionTo(newState)]; the test [this.state !== newState] only
    guards the logging of the change. *)
Definition transitionTo (newState : CircuitState) (cb : CircuitBreaker)
  : CircuitBreaker :=
  {| state := newState; failures := failures cb; successes := successes cb;
     lastFailureTime := lastFailureTime cb; options := options cb |}.

Definition set_successes (n : Z) (cb : CircuitBreaker) : CircuitBreaker :=
  {| state := state cb; failures := failures cb; successes := n;
     lastFailureTime := lastFailureTime cb; options := options cb |}.

Definition set_failures (n : Z) (cb : CircuitBreaker) : CircuitBreaker :=
  {| state := state cb; failures := n; successes := successes cb;
     lastFailureTime := lastFailureTime cb; options := options cb |}.

Definition set_lastFailureTime (t : Z) (cb : CircuitBreaker) : CircuitBreaker :=
  {| state := state cb; failures := failures cb; successes := successes cb;
     lastFailureTime := t; options := options cb |}.

(** [Date.now() - this.lastFailureTime >= this.options.timeout] *)
Definition shouldAttemptReset (cb : CircuitBreaker) (dateNow : Z) : bool :=
  dateNow - lastFailureTime cb >=? timeout (options cb).

Definition onSuccess (cb : CircuitBreaker) : CircuitBreaker :=
  let cb := set_failures 0 cb in
  match state cb with
  | HALF_OPEN =>
      let cb := set_successes (successes cb + 1) cb in
      if successes cb >=? successThreshold (options cb)
      then set_successes 0 (transitionTo CLOSED cb)
      else cb
  | _ => cb
  end.

Definition onFailure (cb : CircuitBreaker) (dateNow : Z) : CircuitBreaker :=
  let cb := set_failures (failures cb + 1) cb in
  let cb := set_lastFailureTime dateNow cb in
  match state cb with
  | HALF_OPEN => set_successes 0 (transitionTo OPEN cb)
  | _ =>
      if failures cb >=? failureThreshold (options cb)
      then transitionTo OPEN cb
      else cb
  end.

Definition CircuitOpenError (circuitName : string) : Error :=
  mkError ("Circuit breaker '" ++ circuitName ++ "' is OPEN - service unavailable")
          "CircuitOpenError" None.

(** The synchronous prefix of [execute], up to the call of [fn]: the
    OPEN-to-HALF_OPEN probe and the fail-fast test.  [None] means the call
    goes through. *)
Definition preflight (cb : CircuitBreaker) (dateNow : Z)
  : CircuitBreaker * option Error :=
  let cb :=
    if CircuitState_eqb (state cb) OPEN && shouldAttemptReset cb dateNow
    then set_successes 0 (transitionTo HALF_OPEN cb)
    else cb in
  if CircuitState_eqb (state cb) OPEN
  then (cb, Some (CircuitOpenError (cname (options cb))))
  else (cb, None).

Section WithRuntime.
Context {W : Type} {RT : Runtime W} {T : Type}.

(** [execute(fn)], for a call that is not interleaved with another call
    on the same circuit. *)
Definition execute (cb : CircuitBreaker) (fn : W -> result T * W) (w : W)
  : result T * CircuitBreaker * W :=
  match preflight cb (now w) with
  | (cb, Some err) => (Thrown (ErrorObj err), cb, w)
  | (cb, None) =>
      match fn w with
      | (Returned v, w') => (Returned v, onSuccess cb, w')
      | (Thrown error, w') => (Thrown error, onFailure cb (now w'), w')
      end
  end.

(** The wrapped function rejects, respectively resolves, whenever it is
    called. *)
Definition fails (fn : W -> result T * W) : Prop :=
  forall w, exists e w', fn w = (Thrown e, w').

Definition succeeds (fn : W -> result T * W) : Prop :=
  forall w, exists v w', fn w = (Returned v, w').

(** A sequence of [execute] calls, one wrapped function per call. *)
Fixpoint executeAll (cb : CircuitBreaker) (fns : list (W -> result T * W))
         (w : W) : CircuitBreaker * W :=
  match fns with
  | [] => (cb, w)
  | fn :: rest =>
      let '(_, cb', w') := execute cb fn w in executeAll cb' rest w'
  end.
End WithRuntime.

(** The counters are below their thresholds where they are consulted;
    this holds in every state reached from a new circuit. *)
Definition counters_in_range (cb : CircuitBreaker) : Prop :=
  (state cb = CLOSED -> 0 <= failures cb < failureThreshold (options cb))
  /\ (state cb = HALF_OPEN -> 0 <= successes cb < successThreshold (options cb))
  /\ 0 <= failures cb /\ 0 <= successes cb.

(** The process-wide registry [circuits : Map<string, CircuitBreaker>]. *)
Definition Registry := list (string * CircuitBreaker).

Fixpoint get (circuits : Registry) (nm : string) : option CircuitBreaker :=
  match circuits with
  | [] => None
  | (k, cb) :: rest => if String.eqb k nm then Some cb else get rest nm
  end.

(** [getCircuitBreaker(name, options?)]: creates the circuit on first use
    with [{ name, ...DEFAULT_OPTIONS, ...options }], otherwise returns the
    registered one and ignores [options]. *)
Definition getCircuitBreaker (circuits : Registry) (nm : string)
           (opts : PartialOptions) : CircuitBreaker * Registry :=
  match get circuits nm with
  | Some cb => (cb, circuits)
  | None =>
      let cb := new (complete nm (spread DEFAULT_OPTIONS opts)) in
      (cb, (circuits ++ [(nm, cb)])%list)
  end.

(** [reset()]: the counters go back to zero and the circuit closes; the
    recorded failure time stays. *)
Definition reset (cb : CircuitBreaker) : CircuitBreaker :=
  transitionTo CLOSED (set_successes 0 (set_failures 0 cb)).

(** The object the [stats] getter returns. *)
Record Stats := {
  stats_name : string;
  stats_state : CircuitState;
  stats_failures : Z;
  stats_successes : Z;
  stats_lastFailureTime : Z
}.

Definition stats (cb : CircuitBreaker) : Stats :=
  {| stats_name := cname (options cb);
     stats_state := state cb;
     stats_failures := failures cb;
     stats_successes := successes cb;
     stats_lastFailureTime := lastFailureTime cb |}.

(** [getAllCircuitStats()]: the registry's values in insertion order. *)
Definition getAllCircuitStats (circuits : Registry) : list Stats :=
  map (fun entry => stats (snd entry)) circuits.

(** *** Sequences of outcomes

    A call either resolves ([true]) or rejects ([false]).  [streak] is the
    number of failures in a row at the end of a sequence of calls that
    began with [run] failures in a row, [peak] the longest such run met on
    the way. *)
Fixpoint streak (run : Z) (outcomes : list bool) : Z :=
  match outcomes with
  | [] => run
  | true :: rest => streak 0 rest
  | false :: rest => streak (run + 1) rest
  end.

Fixpoint peak (run : Z) (outcomes : list bool) : Z :=
  match outcomes with
  | [] => run
  | true :: rest => Z.max run (peak 0 rest)
  | false :: rest => peak (run + 1) rest
  end.

(** The wrapped function has the given outcome whenever it is called. *)
Definition behaves {W T : Type} (fn : W -> result T * W) (ok : bool) : Prop :=
  if ok then succeeds fn else fails fn.

(** Two circuits that agree on everything [execute] can observe: the
    recorded failure time is read in the OPEN state only. *)
Definition alike (a b : CircuitBreaker) : Prop :=
  state a = state b /\ failures a = failures b /\ successes a = successes b
  /\ options a = options b
  /\ (state a = OPEN -> lastFailureTime a = lastFailureTime b).

End Circuit.

(* ===================================================================== *)
(** ** openai.ts                                                          *)
(* ===================================================================== *)

Module OpenAI.

Definition STREAM_TIMEOUT_MS : Z := 30000.

Record Usage := {
  prompt_tokens : Z;
  completion_tokens : Z;
  total_tokens : Z
}.

(** What the loop reads from one chunk of the completion stream:
    [chunk.choices[0]?.delta?.content] and [chunk.usage]. *)
Record Chunk := {
  content : option string;
  usage : option Usage
}.

Inductive StreamEnd :=
| Completes
| Fails (e : Error).

(** The upstream side of one [chat.completions.create] request: the chunks
    it delivers, each with the milliseconds that pass before it arrives,
    and how the stream ends after a last delay.  A request that fails
    before any chunk has [chunks = []]. *)
Record Attempt := {
  chunks : list (Z * Chunk);
  endDelay : Z;
  ending : StreamEnd
}.

Inductive Role := user | assistant.

Record Message := { role : Role; mcontent : string }.

(** A cost-tracker entry for [trackOpenAI(sessionId, input, output)]. *)
Record CostEntry := {
  cost_session : string;
  inputTokens : Z;
  outputTokens : Z
}.

(** The world [streamLLMResponse] runs in.  [listener] is the state the
    caller's [onToken] and [onDone] closures act on. *)
Record World (L : Type) := {
  clock : Z;
  draws : nat -> Q;            (* successive values of Math.random() *)
  drawn : nat;
  upstream : nat -> Attempt;   (* the n-th request made to the service *)
  requests : nat;              (* requests made so far *)
  costs : list CostEntry;
  listener : L
}.
Arguments clock {L} _.
Arguments draws {L} _.
Arguments drawn {L} _.
Arguments upstream {L} _.
Arguments requests {L} _.
Arguments costs {L} _.
Arguments listener {L} _.

Section WithListener.
Context {L : Type}.

Definition set_clock (t : Z) (w : World L) : World L :=
  {| clock := t; draws := draws w; drawn := drawn w; upstream := upstream w;
     requests := requests w; costs := costs w; listener := listener w |}.

Definition set_listener (l : L) (w : World L) : World L :=
  {| clock := clock w; draws := draws w; drawn := drawn w; upstream := upstream w;
     requests := requests w; costs := costs w; listener := l |}.

(** [setTimeout] truncates its delay to an integer and waits at least
    one millisecond. *)
#[global] Instance Runtime_World : Runtime (World L) := {|
  now := clock;
  sleep := fun d w => set_clock (clock w + Z.max 1 (Qfloor d)) w;
  random := fun w =>
    (draws w (drawn w),
     {| clock := clock w; draws := draws w; drawn := S (drawn w);
        upstream := upstream w; requests := requests w; costs := costs w;
        listener := listener w |})
|}.

Record StreamLLMConfig := {
  sessionId : option string;
  systemPrompt : string;
  messages : list Message;
  onToken : string -> L -> L;
  onDone : option Usage -> L -> L
}.

(** The error an aborted request rejects with, as the [catch] clause of
    [streamLLMWithTracking] expects it. *)
Definition AbortError : Error := mkError "Request was aborted." "AbortError" None.

(** Local variables of the [for await] loop. *)
Record LoopState := {
  elapsed : Z;          (* ms since the request was issued *)
  outputCount : Z;      (* outputTokens *)
  lastUsage : option Usage;
  heard : L
}.

(** The body of [for await (const chunk of stream)] over the chunks that
    arrive before the abort timer; [inr st] when the stream was consumed
    to its end, [inl st] when the 30 s timer fired first. *)
Fixpoint consume (config : StreamLLMConfig) (cs : list (Z * Chunk))
         (st : LoopState) : LoopState + LoopState :=
  match cs with
  | [] => inr st
  | (delay, chunk) :: rest =>
      let t := elapsed st + delay in
      if t >=? STREAM_TIMEOUT_MS then inl st
      else
        let token := match content chunk with Some s => s | None => "" end in
        let emit := JsString.truthy token in
        consume config rest
          {| elapsed := t;
             outputCount := if emit then outputCount st + 1 else outputCount st;
             lastUsage := match usage chunk with
                          | Some u => Some u
                          | None => lastUsage st
                          end;
             heard := if emit then onToken config token (heard st) else heard st |}
  end.

(** [Math.ceil(inputText.length / 4)] *)
Definition estimateInputTokens (config : StreamLLMConfig) : Z :=
  let inputText :=
    systemPrompt config ++ JsString.join " " (map mcontent (messages config)) in
  (Z.of_nat (String.length inputText) + 3) / 4.

(** [a || b] on numbers *)
Definition orNumber (a : option Z) (b : Z) : Z :=
  match a with
  | Some v => if v =? 0 then b else v
  | None => b
  end.

Definition timeoutError : Error := newError "LLM response timeout".

(** The [catch] clause: an abort becomes [new Error('LLM response
    timeout')], anything else is rethrown. *)
Definition rethrow (error : Error) : Error :=
  if String.eqb (name error) "AbortError"
  then timeoutError
  else error.

Definition streamLLMWithTracking (config : StreamLLMConfig) (sid : string)
           (w : World L) : result unit * World L :=
  let attempt := upstream w (requests w) in
  let start := clock w in
  let w := {| clock := clock w; draws := draws w; drawn := drawn w;
              upstream := upstream w; requests := S (requests w);
              costs := costs w; listener := listener w |} in
  let st0 := {| elapsed := 0; outputCount := 0; lastUsage := None;
                heard := listener w |} in
  let aborted st :=
    (Thrown (ErrorObj (rethrow AbortError)),
     set_clock (start + STREAM_TIMEOUT_MS) (set_listener (heard st) w)) in
  match consume config (chunks attempt) st0 with
  | inl st => aborted st
  | inr st =>
      let t := elapsed st + endDelay attempt in
      if t >=? STREAM_TIMEOUT_MS then aborted st
      else
        match ending attempt with
        | Fails e =>
            (Thrown (ErrorObj (rethrow e)),
             set_clock (start + t) (set_listener (heard st) w))
        | Completes =>
            let finalInputTokens :=
              orNumber (option_map prompt_tokens (lastUsage st))
                       (estimateInputTokens config) in
            let finalOutputTokens :=
              orNumber (option_map completion_tokens (lastUsage st))
                       (outputCount st) in
            (Returned tt,
             {| clock := start + t; draws := draws w; drawn := drawn w;
                upstream := upstream w; requests := requests w;
                costs := (costs w ++
                          [{| cost_session := sid;
                              inputTokens := finalInputTokens;
                              outputTokens := finalOutputTokens |}])%list;
                listener := onDone config (lastUsage st) (heard st) |})
        end
  end.

(** What a request delivers when nothing cuts it short: the time
    it takes, the tokens that reach [onToken], the usage it reports. *)
Definition sumDelays (cs : list (Z * Chunk)) : Z :=
  fold_right (fun c acc => fst c + acc) 0 cs.

Definition duration (a : Attempt) : Z := sumDelays (chunks a) + endDelay a.

Fixpoint tokensOf (cs : list (Z * Chunk)) : list string :=
  match cs with
  | [] => []
  | (_, chunk) :: rest =>
      match content chunk with
      | Some t => if JsString.truthy t then t :: tokensOf rest else tokensOf rest
      | None => tokensOf rest
      end
  end.

Fixpoint usageOf (cs : list (Z * Chunk)) (seen : option Usage) : option Usage :=
  match cs with
  | [] => seen
  | (_, chunk) :: rest =>
      usageOf rest (match usage chunk with Some u => Some u | None => seen end)
  end.

(** The request ends before the abort timer fires. *)
Definition inTime (a : Attempt) : Prop :=
  Forall (fun c => 0 <= fst c) (chunks a)
  /\ 0 <= endDelay a
  /\ duration a < STREAM_TIMEOUT_MS.

(** [onToken] applied to a list of tokens in order. *)
Definition hear (config : StreamLLMConfig) (tokens : list string) (l : L) : L :=
  fold_left (fun l t => onToken config t l) tokens l.

(** Options of [getCircuitBreaker('openai', ...)]. *)
Definition openaiCircuitOptions : Circuit.PartialOptions :=
  {| Circuit.opt_failureThreshold := Some 3;
     Circuit.opt_successThreshold := Some 2;
     Circuit.opt_timeout := Some 30000 |}.

Definition openaiCircuit : Circuit.CircuitBreaker :=
  fst (Circuit.getCircuitBreaker [] "openai" openaiCircuitOptions).

Definition openaiRetryableErrors : list string :=
  ["429"; "500"; "502"; "503"; "504"; "timeout"; "ECONNRESET"].

(** Options handed to [withRetry] by [streamLLMResponse]. *)
Definition openaiRetryOptions : Retry.PartialRetryOptions :=
  {| Retry.opt_maxRetries := Some 2;
     Retry.opt_baseDelayMs := Some 500%Q;
     Retry.opt_maxDelayMs := None;
     Retry.opt_backoffMultiplier := None;
     Retry.opt_retryableErrors := Some openaiRetryableErrors |}.

(** [streamLLMResponse(config)], with the module-level circuit passed
    explicitly. *)
Definition streamLLMResponse (config : StreamLLMConfig)
           (circuit : Circuit.CircuitBreaker) (w : World L)
  : result unit * Circuit.CircuitBreaker * World L :=
  let sid := match sessionId config with
             | Some s => if JsString.truthy s then s else "unknown"
             | None => "unknown"
             end in
  Circuit.execute circuit
    (Retry.withRetry (streamLLMWithTracking config sid) openaiRetryOptions) w.

End WithListener.

(** The session id [streamLLMResponse] tracks costs under:
    [config.sessionId || 'unknown']. *)
Definition trackedSession (sessionId : option string) : string :=
  match sessionId with
  | Some s => if JsString.truthy s then s else "unknown"
  | None => "unknown"
  end.

(** An upper bound on the time the retry loop takes when it still has
    [fuel] iterations to go from attempt [attempt]: every request ends
    within the stream timeout, and a sleep of at most [sleepBound a]
    follows attempt [a] unless it is the last. *)
Fixpoint budget (sleepBound : nat -> Z) (fuel attempt : nat) : Z :=
  match fuel with
  | O => 0
  | S fuel' =>
      STREAM_TIMEOUT_MS
      + match fuel' with
        | O => 0
        | S _ => sleepBound attempt + budget sleepBound fuel' (S attempt)
        end
  end.
Arguments StreamLLMConfig L : clear implicits.

End OpenAI.

(* ===================================================================== *)
(** ** voice-session: types.ts, audio-handler.ts, index.ts                *)
(* ===================================================================== *)

Module VoiceSession.

(** [types.ts] *)
Definition MAX_CONVERSATION_MESSAGES : nat := 100.

Inductive VerificationState := PENDING | VERIFIED | VERIFYING | UNVERIFIED.

Record ConversationMessage := {
  role : OpenAI.Role;
  content : string
}.

(** [audio-handler.ts]: the adapters are opaque handles, present or
    [null], next to the two usage counters. *)
Record AudioComponents := {
  deepgram : bool;
  tts : bool;
  totalTTSCharacters : Z;
  totalSTTDurationMs : Z
}.

Inductive Speaker := caller | ai.

(** Calls the session makes on its collaborators, in the order made. *)
Inductive Action :=
| TtsAddText (text : string)
| TtsFlush
| TtsClose
| DeepgramClose
| TwilioMedia (payload : string)
| RecorderAppend (who : Speaker) (text : string)
| Dispatched (utterance : string)     (* processUserInput(fullUtterance) *)
| CreateTicket
| CreateUnverifiedRequest
| PostCallSMS (category : string)
| EndRecording (workOrderId : option string)
| TrackTwilioVoice (durationMs : Z)
| TrackElevenLabs (characters : Z)
| TrackDeepgram (durationMs : Z)
| LogSessionSummary.

(** A [NodeJS.Timeout]: the handle [setTimeout] returned, when it is due,
    and whether it is still scheduled (neither fired nor cleared). *)
Record Timer := {
  handle : nat;
  due : Z;
  pending : bool
}.

Definition cancelled (t : Timer) : Timer :=
  {| handle := handle t; due := due t; pending := false |}.

(** [if (slot) clearTimeout(slot)] *)
Definition clearSlot (slot : option Timer) : option Timer :=
  option_map cancelled slot.

Record DurationTimers := {
  softLimitTimer : option Timer;
  hardLimitTimer : option Timer;
  hasHitSoftLimit : bool
}.

Record IssueData := {
  category : option string;
  description : option string
}.

Record VerificationData := {
  vstate : VerificationState;
  createdUnverifiedRequest : bool
}.

(** What [parseResponse] hands back to [onDone]. *)
Record ParseResult := {
  pr_shouldCreateTicket : bool;
  pr_createdUnverifiedRequest : bool;
  pr_issueData : IssueData;
  pr_shouldEndCall : bool
}.

(** The constructor arguments that never change afterwards. *)
Record VoiceSessionConfig := {
  fromPhone : string;
  toPhone : string;
  hasVerifier : bool;          (* this.verifier !== null *)
  hasPropertyContext : bool;   (* this.propertyContext !== null *)
  tenantName : option string;  (* this.tenantContext?.name *)
  sessionId : string;          (* this.log.sessionId *)
  socketOpen : bool            (* socket.readyState === WebSocket.OPEN *)
}.

(** Progress of one call of [handleEndSession] across its [await]s. *)
Inductive EndStage :=
| AwaitSummary        (* createUnverifiedRequest awaits generateSummary *)
| AwaitUnverified     (* awaits verifier.createUnverifiedRequest *)
| AwaitSMS (sent : option string)
                      (* awaits sendPostCallMediaRequest; the text handed
                         to sendSMS, if it was called *)
| AwaitRecording.     (* awaits recorder.endRecording *)

(** One call of [handleEndSession] in flight, with the values its [ctx]
    and [data] arguments captured when [end()] was called. *)
Record EndCall := {
  stage : EndStage;
  ctx_hasAudio : bool;               (* ctx.audio !== null *)
  ctx_silenceTimer : option nat;     (* handle held by ctx.silenceTimer *)
  callDurationMs : Z;
  data_history : list ConversationMessage;
  data_issueData : IssueData;
  data_workOrderId : option string
}.

Record Session := {
  config : VoiceSessionConfig;
  conversationHistory : list ConversationMessage;
  currentTranscript : string;
  isProcessing : bool;
  silenceTimer : option Timer;
  autoEndTimer : option Timer;
  nextHandle : nat;
  scheduledEnds : list Z;        (* setTimeout(() => this.end(), 2000) *)
  audio : option AudioComponents;
  fullResponse : string;         (* of the run in flight *)
  awaitingParse : list string;   (* replies handed to parseResponse *)
  shouldCreateTicket : bool;
  createdWorkOrderId : option string;
  issueData : IssueData;
  verificationData : VerificationData;
  callStartTime : Z;
  durationTimers : DurationTimers;
  ending : list EndCall;
  trace : list Action
}.

(** Field updates. *)
Definition set_conversationHistory v (s : Session) : Session :=
  let '(Build_Session a _ c d e f g h i j k l m n o p q r t) := s in
  Build_Session a v c d e f g h i j k l m n o p q r t.
Definition set_currentTranscript v (s : Session) : Session :=
  let '(Build_Session a b _ d e f g h i j k l m n o p q r t) := s in
  Build_Session a b v d e f g h i j k l m n o p q r t.
Definition set_isProcessing v (s : Session) : Session :=
  let '(Build_Session a b c _ e f g h i j k l m n o p q r t) := s in
  Build_Session a b c v e f g h i j k l m n o p q r t.
Definition set_silenceTimer v (s : Session) : Session :=
  let '(Build_Session a b c d _ f g h i j k l m n o p q r t) := s in
  Build_Session a b c d v f g h i j k l m n o p q r t.
Definition set_autoEndTimer v (s : Session) : Session :=
  let '(Build_Session a b c d e _ g h i j k l m n o p q r t) := s in
  Build_Session a b c d e v g h i j k l m n o p q r t.
Definition set_nextHandle v (s : Session) : Session :=
  let '(Build_Session a b c d e f _ h i j k l m n o p q r t) := s in
  Build_Session a b c d e f v h i j k l m n o p q r t.
Definition set_scheduledEnds v (s : Session) : Session :=
  let '(Build_Session a b c d e f g _ i j k l m n o p q r t) := s in
  Build_Session a b c d e f g v i j k l m n o p q r t.
Definition set_audio v (s : Session) : Session :=
  let '(Build_Session a b c d e f g h _ j k l m n o p q r t) := s in
  Build_Session a b c d e f g h v j k l m n o p q r t.
Definition set_fullResponse v (s : Session) : Session :=
  let '(Build_Session a b c d e f g h i _ k l m n o p q r t) := s in
  Build_Session a b c d e f g h i v k l m n o p q r t.
Definition set_awaitingParse v (s : Session) : Session :=
  let '(Build_Session a b c d e f g h i j _ l m n o p q r t) := s in
  Build_Session a b c d e f g h i j v l m n o p q r t.
Definition set_shouldCreateTicket v (s : Session) : Session :=
  let '(Build_Session a b c d e f g h i j k _ m n o p q r t) := s in
  Build_Session a b c d e f g h i j k v m n o p q r t.
Definition set_createdWorkOrderId v (s : Session) : Session :=
  let '(Build_Session a b c d e f g h i j k l _ n o p q r t) := s in
  Build_Session a b c d e f g h i j k l v n o p q r t.
Definition set_issueData v (s : Session) : Session :=
  let '(Build_Session a b c d e f g h i j k l m _ o p q r t) := s in
  Build_Session a b c d e f g h i j k l m v o p q r t.
Definition set_verificationData v (s : Session) : Session :=
  let '(Build_Session a b c d e f g h i j k l m n _ p q r t) := s in
  Build_Session a b c d e f g h i j k l m n v p q r t.
Definition set_durationTimers v (s : Session) : Session :=
  let '(Build_Session a b c d e f g h i j k l m n o p _ r t) := s in
  Build_Session a b c d e f g h i j k l m n o p v r t.
Definition set_ending v (s : Session) : Session :=
  let '(Build_Session a b c d e f g h i j k l m n o p q _ t) := s in
  Build_Session a b c d e f g h i j k l m n o p q v t.
Definition set_trace v (s : Session) : Session :=
  let '(Build_Session a b c d e f g h i j k l m n o p q r _) := s in
  Build_Session a b c d e f g h i j k l m n o p q r v.

Definition emit (a : Action) (s : Session) : Session :=
  set_trace (trace s ++ [a])%list s.

(** [setTimeout(job, delay)] issued at [dateNow]: a fresh handle. *)
Definition newTimer (dateNow delay : Z) (s : Session) : Timer * Session :=
  ({| handle := nextHandle s; due := dateNow + delay; pending := true |},
   set_nextHandle (S (nextHandle s)) s).

(** [array.slice(-n)] *)
Definition sliceLast {A} (n : nat) (l : list A) : list A :=
  skipn (List.length l - n) l.

(** [addToConversationHistory(role, content)] on the history array. *)
Definition pushHistory (r : OpenAI.Role) (text : string)
           (history : list ConversationMessage) : list ConversationMessage :=
  let pushed := (history ++ [{| role := r; content := text |}])%list in
  if (MAX_CONVERSATION_MESSAGES <? List.length pushed)%nat
  then sliceLast MAX_CONVERSATION_MESSAGES pushed
  else pushed.

Definition addToConversationHistory (r : OpenAI.Role) (text : string)
           (s : Session) : Session :=
  set_conversationHistory (pushHistory r text (conversationHistory s)) s.

(** [recorder.appendTranscript(role, text)] *)
Definition appendTranscript (who : Speaker) (text : string) (s : Session) : Session :=
  emit (RecorderAppend who text) s.

(** [audio-handler.ts] *)
Definition addTTSText (text : string) (s : Session) : Session :=
  match audio s with
  | Some a =>
      if tts a
      then emit (TtsAddText text)
             (set_audio (Some {| deepgram := deepgram a; tts := tts a;
                                 totalTTSCharacters :=
                                   totalTTSCharacters a + Z.of_nat (String.length text);
                                 totalSTTDurationMs := totalSTTDurationMs a |}) s)
      else s
  | None => s
  end.

Definition flushTTS (s : Session) : Session :=
  match audio s with
  | Some a => if tts a then emit TtsFlush s else s
  | None => s
  end.

Definition speakText (text : string) (s : Session) : Session :=
  flushTTS (addTTSText text s).

(** [sendAudioToTwilio], the [onAudio] callback of the synthesis adapter. *)
Definition sendAudioToTwilio (payload : string) (s : Session) : Session :=
  if socketOpen (config s) then emit (TwilioMedia payload) s else s.

(** *** The utterance segmenter: [handleTranscript] *)

Definition SILENCE_MS : Z := 1800.

Definition handleTranscript (dateNow : Z) (transcript : string) (isFinal : bool)
           (s : Session) : Session :=
  if negb (JsString.truthy (JsString.trim transcript)) then s
  else
    let s := set_silenceTimer (clearSlot (silenceTimer s)) s in
    let s := set_autoEndTimer (clearSlot (autoEndTimer s)) s in
    let s :=
      if isFinal then
        if JsString.truthy (currentTranscript s)
           && negb (JsString.endsWith (currentTranscript s) transcript)
        then set_currentTranscript (currentTranscript s ++ " " ++ transcript) s
        else set_currentTranscript transcript s
      else s in
    let (t, s) := newTimer dateNow SILENCE_MS s in
    set_silenceTimer (Some t) s.

(** [processUserInput(text)] up to the call of [streamLLMResponse]: the
    re-entrancy guard, the flag, the user turn and the fresh [fullResponse].
    The verification attempt awaited in between when the caller is being
    verified changes [verificationData] only and is left out. *)
Definition processUserInput_begin (text : string) (s : Session) : Session :=
  if isProcessing s then s
  else
    let s := set_isProcessing true s in
    let s := set_currentTranscript "" s in
    let s := addToConversationHistory OpenAI.user text s in
    set_fullResponse "" s.

(** The callback handed to [setTimeout(..., 1800)]. *)
Definition onSilence (s : Session) : Session :=
  if JsString.truthy (currentTranscript s) && negb (isProcessing s) then
    let fullUtterance := JsString.trim (currentTranscript s) in
    let s := appendTranscript caller fullUtterance s in
    let s := set_currentTranscript "" s in
    processUserInput_begin fullUtterance (emit (Dispatched fullUtterance) s)
  else s.

(** The silence timer fires, if it is still scheduled. *)
Definition fireSilenceTimer (s : Session) : Session :=
  match silenceTimer s with
  | Some t =>
      if pending t then onSilence (set_silenceTimer (Some (cancelled t)) s) else s
  | None => s
  end.

(** *** The pipeline run: the closures given to [streamLLMResponse] *)

Definition onToken (token : string) (s : Session) : Session :=
  let s := set_fullResponse (fullResponse s ++ token) s in
  addTTSText token s.

(** [onDone] up to [await parseResponse(...)]. *)
Definition onDone (usage : option OpenAI.Usage) (s : Session) : Session :=
  let s := flushTTS s in
  set_awaitingParse (awaitingParse s ++ [fullResponse s])%list s.

Definition closingPhrases : list string :=
  [ "anything else"; "have a good"; "take care"; "bye"; "goodbye"; "we'll get";
    "we'll take care"; "someone will"; "is there anything" ].

Definition soundsLikeClosing (cleaned : string) : bool :=
  JsString.some (fun phrase => JsString.includes (JsString.toLowerCase cleaned) phrase)
                closingPhrases.

Definition errorMsg : string := "I'm sorry, I'm having trouble. Could you repeat that?".

(** [finally { this.isProcessing = false }] after the stream resolved. *)
Definition runResolved (s : Session) : Session := set_isProcessing false s.

(** [catch] and [finally] after the stream rejected. *)
Definition runRejected (s : Session) : Session :=
  let s := speakText errorMsg s in
  let s := appendTranscript ai errorMsg s in
  set_isProcessing false s.

Section WithResponseParser.
(** [cleanResponse] of response-parser.ts, which strips the control tags
    from a reply; the file is not part of the sources at hand. *)
Variable cleanResponse : string -> string.

(** [onDone] after [parseResponse] resolved, given its result and the
    work-order id [handleTicketCreation] returns when it is called. *)
Definition onDoneResume (dateNow : Z) (pr : ParseResult) (ticket : option string)
           (s : Session) : Session :=
  match awaitingParse s with
  | [] => s
  | reply :: rest =>
      let s := set_awaitingParse rest s in
      let s := set_shouldCreateTicket (pr_shouldCreateTicket pr) s in
      let s := set_verificationData
                 {| vstate := vstate (verificationData s);
                    createdUnverifiedRequest := pr_createdUnverifiedRequest pr |} s in
      let s := set_issueData (pr_issueData pr) s in
      let s := if pr_shouldEndCall pr
               then set_scheduledEnds (scheduledEnds s ++ [dateNow + 2000])%list s
               else s in
      let cleaned := cleanResponse reply in
      let s := addToConversationHistory OpenAI.assistant cleaned s in
      let s := appendTranscript ai cleaned s in
      let s :=
        if soundsLikeClosing cleaned then
          let s := set_autoEndTimer (clearSlot (autoEndTimer s)) s in
          let (t, s) := newTimer dateNow 5000 s in
          set_autoEndTimer (Some t) s
        else s in
      if shouldCreateTicket s then
        let s := emit CreateTicket s in
        let s := match ticket with
                 | Some id => if JsString.truthy id
                              then set_createdWorkOrderId (Some id) s else s
                 | None => s
                 end in
        set_shouldCreateTicket false s
      else s
  end.
End WithResponseParser.

Definition asMessage (m : ConversationMessage) : OpenAI.Message :=
  {| OpenAI.role := role m; OpenAI.mcontent := content m |}.

(** The argument of [streamLLMResponse] in [processUserInput];
    [systemPrompt] is the text [buildSystemPrompt] returns. *)
Definition llmConfig (systemPrompt : string) (s : Session)
  : OpenAI.StreamLLMConfig Session :=
  {| OpenAI.sessionId := Some (sessionId (config s));
     OpenAI.systemPrompt := systemPrompt;
     OpenAI.messages := map asMessage (conversationHistory s);
     OpenAI.onToken := onToken;
     OpenAI.onDone := onDone |}.

(** [processUserInput(text)] run to the end of its [finally] with no other
    event of the session interleaved; the session is the listener of the
    world the stream runs in. *)
Definition processUserInput (systemPrompt text : string)
           (circuit : Circuit.CircuitBreaker) (w : OpenAI.World Session)
  : Circuit.CircuitBreaker * OpenAI.World Session :=
  if isProcessing (OpenAI.listener w) then (circuit, w)
  else
    let s := processUserInput_begin text (OpenAI.listener w) in
    match OpenAI.streamLLMResponse (llmConfig systemPrompt s) circuit
                                   (OpenAI.set_listener s w) with
    | (Returned _, circuit', w') =>
        (circuit', OpenAI.set_listener (runResolved (OpenAI.listener w')) w')
    | (Thrown _, circuit', w') =>
        (circuit', OpenAI.set_listener (runRejected (OpenAI.listener w')) w')
    end.

(** *** issue-handler.ts *)

(** [ISSUE_CATEGORIES]: each pattern is a case-insensitive alternation of
    literal words, given here by its alternatives. *)
Definition ISSUE_CATEGORIES : list (string * list string) :=
  [ ("plumbing_leak",
     ["leak"; "water"; "drip"; "flood"; "burst"; "pipe"; "faucet"; "toilet overflow"]);
    ("plumbing_other",
     ["toilet"; "drain"; "clog"; "sink"; "shower"; "tub"; "disposal"]);
    ("hvac",
     ["heat"; "ac"; "air condition"; "thermostat"; "furnace"; "cold"; "hot air";
      "vent"; "filter"]);
    ("electrical",
     ["outlet"; "light"; "power"; "switch"; "breaker"; "spark"; "electrical"; "socket"]);
    ("appliance",
     ["refrigerator"; "fridge"; "dishwasher"; "washer"; "dryer"; "stove"; "oven";
      "microwave"]);
    ("structural",
     ["door"; "window"; "lock"; "wall"; "ceiling"; "floor"; "roof"; "crack"; "hole"]);
    ("pest",
     ["bug"; "roach"; "ant"; "mouse"; "rat"; "pest"; "rodent"; "insect"; "spider"]) ].

Definition MEDIA_HELPFUL_CATEGORIES : list string :=
  ["plumbing_leak"; "structural"; "appliance"; "pest"; "electrical"].

Definition isUser (m : ConversationMessage) : bool :=
  match role m with OpenAI.user => true | OpenAI.assistant => false end.

Definition userText (history : list ConversationMessage) : string :=
  JsString.join " " (map content (filter isUser history)).

Fixpoint firstMatch (text : string) (cats : list (string * list string))
  : option string :=
  match cats with
  | [] => None
  | (cat, alternatives) :: rest =>
      if JsString.some (fun word => JsString.includes text word) alternatives
      then Some cat
      else firstMatch text rest
  end.

Definition extractIssueCategory (history : list ConversationMessage) : IssueData :=
  let userMessages := JsString.toLowerCase (userText history) in
  {| category := match firstMatch userMessages ISSUE_CATEGORIES with
                 | Some cat => Some cat
                 | None => Some "other"
                 end;
     description := Some (userText history) |}.

Definition shouldRequestMedia (issueCategory : option string) : bool :=
  match issueCategory with
  | None => false
  | Some c =>
      JsString.truthy c && existsb (String.eqb c) MEDIA_HELPFUL_CATEGORIES
  end.

(** [name.split(' ')[0]] *)
Fixpoint firstWord (s : string) : string :=
  match s with
  | EmptyString => EmptyString
  | String c r => if Ascii.eqb c " " then EmptyString else String c (firstWord r)
  end.

Definition buildMediaRequestMessage (issueCategory : string)
           (tenant : option string) : string :=
  let greeting := match tenant with
                  | Some n => "Hi " ++ n ++ "!"
                  | None => "Hi!"
                  end in
  greeting ++ " Thanks for calling! " ++
  (if String.eqb issueCategory "plumbing_leak" then
     "If you can safely take a photo or quick video of the leak, it'll help us send the right person with the right tools. Just reply to this text with the photo when you can!"
   else if String.eqb issueCategory "structural" then
     "A photo of the issue would really help us assess it better. Just reply to this text with a picture when you have a moment!"
   else if String.eqb issueCategory "appliance" then
     "If you can snap a photo of the appliance (and any error codes if there are any), it'll help us figure out exactly what's going on. Just reply with the pic!"
   else if String.eqb issueCategory "pest" then
     "If you're able to safely get a photo (no need to get too close!), it'll help us identify exactly what we're dealing with. Just reply with the pic!"
   else if String.eqb issueCategory "electrical" then
     "If it's safe to do so, a photo of the outlet/switch would help us assess the issue. Just reply with the pic when you can!"
   else
     "If you can send us a photo of the issue, it'll really help us get this sorted faster. Just reply to this text with the pic!").

(** *** end-handler.ts and [VoiceSession.end] *)

Definition park (call : EndCall) (st : EndStage) (s : Session) : Session :=
  set_ending
    (ending s ++
     [{| stage := st; ctx_hasAudio := ctx_hasAudio call;
         ctx_silenceTimer := ctx_silenceTimer call;
         callDurationMs := callDurationMs call;
         data_history := data_history call;
         data_issueData := data_issueData call;
         data_workOrderId := data_workOrderId call |}])%list s.

(** From [await ctx.recorder.endRecording(...)] on. *)
Definition recordingSegment (call : EndCall) (s : Session) : Session :=
  let workOrderId := match data_workOrderId call with
                     | Some id => if JsString.truthy id then Some id else None
                     | None => None
                     end in
  park call AwaitRecording (emit (EndRecording workOrderId) s).

(** From "Send post-call media request" up to the next [await]. *)
Definition smsSegment (call : EndCall) (s : Session) : Session :=
  if (2 <? List.length (data_history call))%nat then
    let issue :=
      match category (data_issueData call) with
      | Some c => if JsString.truthy c then data_issueData call
                  else extractIssueCategory (data_history call)
      | None => extractIssueCategory (data_history call)
      end in
    if shouldRequestMedia (category issue)
       && JsString.truthy (fromPhone (config s))
       && JsString.truthy (toPhone (config s))
    then
      let cat := match category issue with Some c => c | None => "" end in
      let tenantFirst :=
        match tenantName (config s) with
        | Some n => let f := firstWord n in
                    if JsString.truthy f then Some f else None
        | None => None
        end in
      park call (AwaitSMS (Some (buildMediaRequestMessage cat tenantFirst)))
           (emit (PostCallSMS cat) s)
    else park call (AwaitSMS None) s
  else recordingSegment call s.

(** [cleanupAudio(components)] *)
Definition cleanupAudio (s : Session) : Session :=
  match audio s with
  | None => s
  | Some a =>
      let s := if deepgram a then emit DeepgramClose s else s in
      let s := if tts a then emit TtsClose s else s in
      set_audio (Some {| deepgram := false; tts := false;
                         totalTTSCharacters := totalTTSCharacters a;
                         totalSTTDurationMs := totalSTTDurationMs a |}) s
  end.

(** [clearTimeout(h)] on the silence timer's handle. *)
Definition clearSilenceHandle (h : nat) (s : Session) : Session :=
  match silenceTimer s with
  | Some t => if (handle t =? h)%nat
              then set_silenceTimer (Some (cancelled t)) s else s
  | None => s
  end.

Definition clearDurationTimers (s : Session) : Session :=
  set_durationTimers
    {| softLimitTimer := None; hardLimitTimer := None;
       hasHitSoftLimit := hasHitSoftLimit (durationTimers s) |} s.

(** From "Track costs" to the end of [handleEndSession]. *)
Definition finalSegment (call : EndCall) (s : Session) : Session :=
  let s := emit (TrackTwilioVoice (callDurationMs call)) s in
  let s := if ctx_hasAudio call then
             match audio s with
             | Some a => emit (TrackDeepgram (totalSTTDurationMs a))
                           (emit (TrackElevenLabs (totalTTSCharacters a)) s)
             | None => s
             end
           else s in
  let s := emit LogSessionSummary s in
  let s := if ctx_hasAudio call then cleanupAudio s else s in
  let s := match ctx_silenceTimer call with
           | Some h => clearSilenceHandle h s
           | None => s
           end in
  clearDurationTimers s.

Definition needsUnverifiedRequest (s : Session) : bool :=
  (match vstate (verificationData s) with
   | UNVERIFIED | VERIFYING => true
   | _ => false
   end)
  && negb (createdUnverifiedRequest (verificationData s))
  && hasVerifier (config s) && hasPropertyContext (config s).

(** [end()] together with [handleEndSession] up to its first [await]. *)
Definition endSession (dateNow : Z) (s : Session) : Session :=
  let s := match autoEndTimer s with
           | Some _ => set_autoEndTimer None s
           | None => s
           end in
  let call :=
    {| stage := AwaitSummary;
       ctx_hasAudio := match audio s with Some _ => true | None => false end;
       ctx_silenceTimer := option_map handle (silenceTimer s);
       callDurationMs := dateNow - callStartTime s;
       data_history := conversationHistory s;
       data_issueData := issueData s;
       data_workOrderId := createdWorkOrderId s |} in
  if needsUnverifiedRequest s then park call AwaitSummary s
  else smsSegment call s.

Fixpoint removeNth {A} (i : nat) (l : list A) : list A :=
  match i, l with
  | _, [] => []
  | O, _ :: rest => rest
  | S i', x :: rest => x :: removeNth i' rest
  end.

(** The [i]-th call of [handleEndSession] in flight resumes after its
    [await]; [smsOk] is what [sendSMS] resolved to, when it was called. *)
Definition resumeEnd (i : nat) (smsOk : bool) (s : Session) : Session :=
  match nth_error (ending s) i with
  | None => s
  | Some call =>
      let s := set_ending (removeNth i (ending s)) s in
      match stage call with
      | AwaitSummary => park call AwaitUnverified (emit CreateUnverifiedRequest s)
      | AwaitUnverified => smsSegment call s
      | AwaitSMS sent =>
          let s := match sent with
                   | Some text =>
                       if smsOk
                       then appendTranscript ai ("[POST-CALL SMS] " ++ text) s
                       else s
                   | None => s
                   end in
          recordingSegment call s
      | AwaitRecording => finalSegment call s
      end
  end.

(** *** The event loop of one session *)

Inductive Event :=
| Transcript (dateNow : Z) (transcript : string) (isFinal : bool)
| SilenceTimeout
| AutoEndTimeout (dateNow : Z)
| EndRequested (dateNow : Z)     (* transport stop/close, or a scheduled end *)
| EndResumes (i : nat) (smsOk : bool)
| Token (token : string)
| StreamDone (usage : option OpenAI.Usage)
| ParseResolved (dateNow : Z) (pr : ParseResult) (ticket : option string)
| RunResolved
| RunRejected
| SynthAudio (payload : string).

Section Loop.
Variable cleanResponse : string -> string.

Definition step (s : Session) (e : Event) : Session :=
  match e with
  | Transcript dateNow transcript isFinal =>
      handleTranscript dateNow transcript isFinal s
  | SilenceTimeout => fireSilenceTimer s
  | AutoEndTimeout dateNow =>
      match autoEndTimer s with
      | Some t =>
          if pending t
          then endSession dateNow (set_autoEndTimer (Some (cancelled t)) s)
          else s
      | None => s
      end
  | EndRequested dateNow => endSession dateNow s
  | EndResumes i smsOk => resumeEnd i smsOk s
  | Token token => onToken token s
  | StreamDone usage => onDone usage s
  | ParseResolved dateNow pr ticket => onDoneResume cleanResponse dateNow pr ticket s
  | RunResolved => runResolved s
  | RunRejected => runRejected s
  | SynthAudio payload => sendAudioToTwilio payload s
  end.

Definition run (s : Session) (events : list Event) : Session :=
  fold_left step events s.




End Loop.

(** The synthesis adapter is connected. *)
Definition ttsReady (s : Session) : Prop :=
  exists a, audio s = Some a /\ tts a = true.


(** *** Observations on a session and its trace *)













(** The run settles: [streamLLMResponse] resolved or rejected. *)
Definition isSettle (e : Event) : bool :=
match e with
| RunResolved | RunRejected => true
| _ => false
end.












(** A session right after construction, with its audio initialised. *)
Definition fresh (cfg : VoiceSessionConfig) (started : Z) : Session :=
  {| config := cfg;
     conversationHistory := [];
     currentTranscript := "";
     isProcessing := false;
     silenceTimer := None;
     autoEndTimer := None;
     nextHandle := 0;
     scheduledEnds := [];
     audio := Some {| deepgram := true; tts := true;
                      totalTTSCharacters := 0; totalSTTDurationMs := 0 |};
     fullResponse := "";
     awaitingParse := [];
     shouldCreateTicket := false;
     createdWorkOrderId := None;
     issueData := {| category := None; description := None |};
     verificationData := {| vstate := PENDING; createdUnverifiedRequest := false |};
     callStartTime := started;
     durationTimers := {| softLimitTimer := None; hardLimitTimer := None;
                          hasHitSoftLimit := false |};
     ending := [];
     trace := [] |}.

(** *** [handleAudio] and audio-handler.ts, [handleIncomingAudio]

    The second component is the payload handed to [deepgram.send], if the
    call was made. *)
Definition handleIncomingAudio (deepgramPresent : bool) (base64Audio : string)
  : Z * option string :=
  if deepgramPresent then (20, Some base64Audio) else (0, None).

Definition handleAudio (base64Audio : string) (s : Session)
  : Session * option string :=
  match audio s with
  | Some a =>
      let (added, sent) := handleIncomingAudio (deepgram a) base64Audio in
      (set_audio (Some {| deepgram := deepgram a; tts := tts a;
                          totalTTSCharacters := totalTTSCharacters a;
                          totalSTTDurationMs := totalSTTDurationMs a + added |}) s,
       sent)
  | None => (s, None)
  end.

(** The ['media'] messages of a call, in order, with what reached the
    transcription adapter. *)
Fixpoint feed (payloads : list string) (s : Session) : Session * list string :=
  match payloads with
  | [] => (s, [])
  | p :: rest =>
      let (s1, sent) := handleAudio p s in
      let (s2, more) := feed rest s1 in
      (s2, (match sent with Some x => [x] | None => [] end ++ more)%list)
  end.

Definition sttDuration (s : Session) : Z :=
  match audio s with
  | Some a => totalSTTDurationMs a
  | None => 0
  end.

(** *** duration-limits.ts *)

Definition SOFT_LIMIT_MS : Z := 20 * 60 * 1000.
Definition HARD_LIMIT_MS : Z := 30 * 60 * 1000.

Definition softLimitMessage : string :=
  "Hey, I just want to make sure I'm helping you as best I can. We've been chatting for a bit - if you'd prefer, you can also text this number anytime and I can help you that way too. It's totally up to you - I'm happy to keep talking or you can reach out via text whenever it's convenient. Is there anything else you need help with right now?".

Definition hardLimitMessage : string :=
  "I've really enjoyed helping you today. I want to make sure the property manager can review everything we discussed. I'm going to wrap up our call now, but remember you can always text this number if you think of anything else. Take care!".

(** [handleSoftLimit(ctx, timers)].  The promise [ctx.speak] returns is
    already settled when it is awaited, so the handler runs to its end
    before any other event of the session. *)
Definition handleSoftLimit (s : Session) : Session :=
  if hasHitSoftLimit (durationTimers s) then s
  else
    let s := set_durationTimers
               {| softLimitTimer := softLimitTimer (durationTimers s);
                  hardLimitTimer := hardLimitTimer (durationTimers s);
                  hasHitSoftLimit := true |} s in
    let s := speakText softLimitMessage s in
    let s := addToConversationHistory OpenAI.assistant softLimitMessage s in
    appendTranscript ai softLimitMessage s.

(** [handleHardLimit(ctx)]; [dateNow] is the time at which it schedules
    the call of [end()]. *)
Definition handleHardLimit (dateNow : Z) (s : Session) : Session :=
  let s := speakText hardLimitMessage s in
  let s := addToConversationHistory OpenAI.assistant hardLimitMessage s in
  let s := appendTranscript ai hardLimitMessage s in
  set_scheduledEnds (scheduledEnds s ++ [dateNow + 8000])%list s.

(** [startDurationTimers(ctx, timers)] *)
Definition startDurationTimers (dateNow : Z) (s : Session) : Session :=
  let (soft, s) := newTimer dateNow SOFT_LIMIT_MS s in
  let s := set_durationTimers
             {| softLimitTimer := Some soft;
                hardLimitTimer := hardLimitTimer (durationTimers s);
                hasHitSoftLimit := hasHitSoftLimit (durationTimers s) |} s in
  let (hard, s) := newTimer dateNow HARD_LIMIT_MS s in
  set_durationTimers
    {| softLimitTimer := softLimitTimer (durationTimers s);
       hardLimitTimer := Some hard;
       hasHitSoftLimit := hasHitSoftLimit (durationTimers s) |} s.

(** The soft-limit, respectively hard-limit, timer fires, if it is still
    scheduled. *)
Definition fireSoftLimit (s : Session) : Session :=
  match softLimitTimer (durationTimers s) with
  | Some t =>
      if pending t
      then handleSoftLimit
             (set_durationTimers
                {| softLimitTimer := Some (cancelled t);
                   hardLimitTimer := hardLimitTimer (durationTimers s);
                   hasHitSoftLimit := hasHitSoftLimit (durationTimers s) |} s)
      else s
  | None => s
  end.

Definition fireHardLimit (dateNow : Z) (s : Session) : Session :=
  match hardLimitTimer (durationTimers s) with
  | Some t =>
      if pending t
      then handleHardLimit dateNow
             (set_durationTimers
                {| softLimitTimer := softLimitTimer (durationTimers s);
                   hardLimitTimer := Some (cancelled t);
                   hasHitSoftLimit := hasHitSoftLimit (durationTimers s) |} s)
      else s
  | None => s
  end.

(** *** Further observations *)

(** Characters handed to [tts.addText]. *)
Fixpoint spoken (tr : list Action) : Z :=
  match tr with
  | [] => 0
  | TtsAddText text :: rest => Z.of_nat (String.length text) + spoken rest
  | _ :: rest => spoken rest
  end.

Definition ttsCharacters (s : Session) : Z :=
  match audio s with
  | Some a => totalTTSCharacters a
  | None => 0
  end.

(** 1 while a run is in flight. *)
Definition inFlight (s : Session) : nat := if isProcessing s then 1 else 0.

Definition settles (events : list Event) : nat :=
  List.length (filter isSettle events).

(** The buffer after one more final fragment, as [handleTranscript]
    computes it. *)
Definition accumulate (buffer fragment : string) : string :=
  if JsString.truthy buffer && negb (JsString.endsWith buffer fragment)
  then buffer ++ " " ++ fragment
  else fragment.

Definition accumulated (buffer : string) (fragments : list string) : string :=
  fold_left accumulate fragments buffer.

(** No fragment repeats the end of what is buffered when it arrives. *)
Fixpoint noRepeats (buffer : string) (fragments : list string) : Prop :=
  match fragments with
  | [] => True
  | x :: rest =>
      JsString.endsWith buffer x = false /\ noRepeats (accumulate buffer x) rest
  end.

(** Final fragments as timed events. *)
Definition burst (fragments : list (Z * string)) : list (Z * Event) :=
  map (fun f => (fst f, Transcript (fst f) (snd f) true)) fragments.

(** Each fragment comes less than the silence timeout after the one
    before. *)
Fixpoint dense (fragments : list (Z * string)) : Prop :=
  match fragments with
  | [] => True
  | f :: rest =>
      match rest with
      | [] => True
      | g :: _ => fst g < fst f + SILENCE_MS
      end /\ dense rest
  end.

(** A post-call SMS went out for a category for which media help, with
    both phone numbers known. *)
Definition smsJustified (cfg : VoiceSessionConfig) (a : Action) : Prop :=
  match a with
  | PostCallSMS c =>
      In c MEDIA_HELPFUL_CATEGORIES
      /\ JsString.truthy (fromPhone cfg) = true
      /\ JsString.truthy (toPhone cfg) = true
  | _ => True
  end.

End VoiceSession.

(* ===================================================================== *)
(** ** deepgram.ts and elevenlabs.ts: the options the adapters pass       *)
(* ===================================================================== *)

Module Adapters.

(** [getCircuitBreaker('deepgram', ...)] *)
Definition deepgramCircuitOptions : Circuit.PartialOptions :=
  {| Circuit.opt_failureThreshold := Some 3;
     Circuit.opt_successThreshold := Some 2;
     Circuit.opt_timeout := Some 30000 |}.

(** [getCircuitBreaker('elevenlabs', ...)] *)
Definition elevenLabsCircuitOptions : Circuit.PartialOptions :=
  {| Circuit.opt_failureThreshold := Some 3;
     Circuit.opt_successThreshold := Some 2;
     Circuit.opt_timeout := Some 60000 |}.

(** [withRetry(..., { maxRetries: 2, baseDelayMs: 500 })] in deepgram.ts *)
Definition deepgramRetryOptions : Retry.PartialRetryOptions :=
  {| Retry.opt_maxRetries := Some 2;
     Retry.opt_baseDelayMs := Some 500%Q;
     Retry.opt_maxDelayMs := None;
     Retry.opt_backoffMultiplier := None;
     Retry.opt_retryableErrors := None |}.

(** [withRetry(..., { maxRetries: 2, baseDelayMs: 1000 })] in elevenlabs.ts *)
Definition elevenLabsRetryOptions : Retry.PartialRetryOptions :=
  {| Retry.opt_maxRetries := Some 2;
     Retry.opt_baseDelayMs := Some 1000%Q;
     Retry.opt_maxDelayMs := None;
     Retry.opt_backoffMultiplier := None;
     Retry.opt_retryableErrors := None |}.

(** The options a circuit created through the registry ends up with. *)
Definition effectiveCircuitOptions (nm : string) (o : Circuit.PartialOptions)
  : Circuit.CircuitBreakerOptions :=
  Circuit.options (fst (Circuit.getCircuitBreaker [] nm o)).

(** The options [withRetry] runs with. *)
Definition effectiveRetryOptions (o : Retry.PartialRetryOptions)
  : Retry.RetryOptions :=
  Retry.spread Retry.DEFAULT_OPTIONS o.

End Adapters.

(* ===================================================================== *)
(** ** Concrete sessions used in the examples                             *)
(* ===================================================================== *)

Module Samples.
Import VoiceSession.

Definition cfg : VoiceSessionConfig :=
  {| fromPhone := "+15550100"; toPhone := "+15550199";
     hasVerifier := true; hasPropertyContext := true;
     tenantName := Some "Ada Lovelace"; sessionId := "session-1";
     socketOpen := true |}.

(** A started call, nothing said yet. *)
Definition idle : Session := fresh cfg 0.

Definition numbered (n : nat) : list ConversationMessage :=
  map (fun i => {| role := OpenAI.user;
                   content := String (ascii_of_nat (48 + i mod 10)) "" |})
      (seq 0 n).

(** A call whose history is at the cap. *)
Definition full : Session := set_conversationHistory (numbered 100) idle.

(** The simplest host: the world is the clock, [Math.random()] is 0. *)
#[global] Instance Runtime_clock : Runtime Z := {|
  now := fun w => w;
  sleep := fun d w => w + Z.max 1 (Qfloor d);
  random := fun w => (0%Q, w)
|}.






Definition token (ms : Z) (text : string) : Z * OpenAI.Chunk :=
  (ms, {| OpenAI.content := Some text; OpenAI.usage := None |}).

(** A request that delivers two tokens and then breaks with HTTP 503. *)
Definition broken : OpenAI.Attempt :=
  {| OpenAI.chunks := [token 300 "Sure"; token 50 ", let"];
     OpenAI.endDelay := 20;
     OpenAI.ending := OpenAI.Fails (newError "503 Service Unavailable") |}.

(** A request that delivers its reply and completes. *)
Definition complete : OpenAI.Attempt :=
  {| OpenAI.chunks := [token 280 "Sure, "; token 40 "I can help."];
     OpenAI.endDelay := 15;
     OpenAI.ending := OpenAI.Completes |}.


Definition world (upstream : nat -> OpenAI.Attempt) (s : VoiceSession.Session)
  : OpenAI.World VoiceSession.Session :=
  {| OpenAI.clock := 100000; OpenAI.draws := fun _ => 0%Q; OpenAI.drawn := 0;
     OpenAI.upstream := upstream; OpenAI.requests := 0; OpenAI.costs := [];
     OpenAI.listener := s |}.

(** The first request breaks, later ones complete. *)
Definition breaksOnce (n : nat) : OpenAI.Attempt :=
  match n with O => broken | S _ => complete end.



Definition prompt : string := "You are the assistant of the property manager.".








End Samples.

(* ===================================================================== *)
(** * Properties                                                          *)
(* ===================================================================== *)

(** Reduce the field updates and projections of a session, and nothing
    else. *)
Ltac session_cbn :=
  cbn [VoiceSession.set_conversationHistory VoiceSession.set_currentTranscript
       VoiceSession.set_isProcessing VoiceSession.set_silenceTimer
       VoiceSession.set_autoEndTimer VoiceSession.set_nextHandle
       VoiceSession.set_scheduledEnds VoiceSession.set_audio
       VoiceSession.set_fullResponse VoiceSession.set_awaitingParse
       VoiceSession.set_shouldCreateTicket VoiceSession.set_createdWorkOrderId
       VoiceSession.set_issueData VoiceSession.set_verificationData
       VoiceSession.set_durationTimers VoiceSession.set_ending
       VoiceSession.set_trace VoiceSession.emit VoiceSession.newTimer
       VoiceSession.park
       VoiceSession.appendTranscript VoiceSession.addToConversationHistory
       VoiceSession.config VoiceSession.conversationHistory
       VoiceSession.currentTranscript VoiceSession.isProcessing
       VoiceSession.silenceTimer VoiceSession.autoEndTimer
       VoiceSession.nextHandle VoiceSession.scheduledEnds VoiceSession.audio
       VoiceSession.fullResponse VoiceSession.awaitingParse
       VoiceSession.shouldCreateTicket VoiceSession.createdWorkOrderId
       VoiceSession.issueData VoiceSession.verificationData
       VoiceSession.callStartTime VoiceSession.durationTimers
       VoiceSession.ending VoiceSession.trace
       VoiceSession.handle VoiceSession.due VoiceSession.pending
       VoiceSession.cancelled VoiceSession.clearSlot option_map
       VoiceSession.deepgram VoiceSession.tts VoiceSession.totalTTSCharacters
       VoiceSession.totalSTTDurationMs
       fst snd negb andb orb] in *.

Ltac destruct_session s :=
  destruct s as [?cfg ?hist ?cur ?proc ?stimer ?atimer ?nh ?sends ?au ?full ?parse
                 ?sct ?cwo ?issue ?vd ?cst ?dts ?en ?tr].

(** ** Conversation history *)

Lemma sliceLast_length {A} (n : nat) (l : list A) :
  List.length (VoiceSession.sliceLast n l) = Nat.min n (List.length l).
Proof.
  unfold VoiceSession.sliceLast. rewrite length_skipn. lia.
Qed.

Lemma sliceLast_suffix {A} (n : nat) (l : list A) :
  (firstn (List.length l - n) l ++ VoiceSession.sliceLast n l)%list = l.
Proof. unfold VoiceSession.sliceLast. apply firstn_skipn. Qed.

Lemma pushHistory_length r text h :
  List.length (VoiceSession.pushHistory r text h)
  = Nat.min VoiceSession.MAX_CONVERSATION_MESSAGES (S (List.length h)).
Proof.
  unfold VoiceSession.pushHistory.
  destruct (Nat.ltb_spec VoiceSession.MAX_CONVERSATION_MESSAGES
              (List.length (h ++ [{| VoiceSession.role := r; VoiceSession.content := text |}])%list))
    as [Hlt | Hge].
  - rewrite sliceLast_length. rewrite length_app in *. cbn [List.length] in *. lia.
  - rewrite length_app in *. cbn [List.length] in *. lia.
Qed.

(** C5. Appending to a history of 100 messages gives a history of exactly
    100 messages whose first element is the former second one; every append
    leaves at most 100 messages, drops only from the front and keeps the
    remaining messages, the new one last, in their order. *)
Theorem history_cap_fifo :
  forall (r : OpenAI.Role) (text : string) (s : VoiceSession.Session),
    let h := VoiceSession.conversationHistory s in
    let m := {| VoiceSession.role := r; VoiceSession.content := text |} in
    let h' := VoiceSession.conversationHistory
                (VoiceSession.addToConversationHistory r text s) in
    (List.length h' <= 100)%nat
    /\ (exists evicted, (evicted ++ h')%list = (h ++ [m])%list
                        /\ List.length evicted = (S (List.length h) - 100)%nat)
    /\ (List.length h = 100%nat ->
        List.length h' = 100%nat
        /\ h' = (tl h ++ [m])%list
        /\ nth_error h' 0 = nth_error h 1).
Proof.
  intros r text s h m h'.
  assert (Hh' : h' = VoiceSession.pushHistory r text h).
  { subst h' h. destruct s; reflexivity. }
  assert (Hlen : List.length h' = Nat.min 100 (S (List.length h))).
  { rewrite Hh'. apply pushHistory_length. }
  unfold VoiceSession.MAX_CONVERSATION_MESSAGES in *.
  assert (Hsuf : exists evicted, (evicted ++ h')%list = (h ++ [m])%list
                        /\ List.length evicted = (S (List.length h) - 100)%nat).
  { rewrite Hh'. unfold VoiceSession.pushHistory. fold m.
    destruct (Nat.ltb_spec VoiceSession.MAX_CONVERSATION_MESSAGES
                (List.length (h ++ [m])%list)) as [Hlt | Hge].
    - eexists. split; [apply sliceLast_suffix|].
      rewrite length_firstn, length_app. cbn [List.length].
      unfold VoiceSession.MAX_CONVERSATION_MESSAGES in *.
      rewrite length_app in Hlt. cbn [List.length] in Hlt. lia.
    - exists []. split; [reflexivity|].
      unfold VoiceSession.MAX_CONVERSATION_MESSAGES in *.
      rewrite length_app in Hge. cbn [List.length] in *. lia. }
  split; [lia|]. split; [exact Hsuf|].
  intros H100.
  destruct Hsuf as (evicted & Heq & Hev).
  rewrite H100 in Hev.
  replace (101 - 100)%nat with 1%nat in Hev by lia.
  destruct h as [|x h0]; [discriminate|].
  destruct evicted as [|y [|z ev]]; try discriminate.
  cbn [app] in Heq. injection Heq as _ Heq.
  split; [lia|]. split; [exact Heq|].
  rewrite Heq. cbn [tl nth_error app].
  destruct h0; [discriminate|reflexivity].
Qed.

Lemma history_cap_fifo_witness :
  List.length (VoiceSession.conversationHistory Samples.full) = 100%nat
  /\ List.length (VoiceSession.conversationHistory
                    (VoiceSession.addToConversationHistory OpenAI.assistant "hello"
                       Samples.full)) = 100%nat.
Proof.
  split; [reflexivity|].
  exact (proj1 (proj2 (proj2 (history_cap_fifo OpenAI.assistant "hello" Samples.full))
                 eq_refl)).
Defined.

(** ** Default parameters of the resilience wrapper *)

(** C9, as stated, fails: without overrides the circuit opens after 5
    failures and the retry wrapper makes 3 retries. *)
Lemma defaults_not_three_and_two :
  ~ (Circuit.failureThreshold
       (Adapters.effectiveCircuitOptions "openai" Circuit.noOverrides) = 3
     /\ Retry.maxRetries (Adapters.effectiveRetryOptions Retry.noOverrides) = 2).
Proof. cbv. intros [H _]. discriminate H. Qed.

(** C9, amended. With no overrides the breaker uses failureThreshold 5,
    successThreshold 2 and timeout 30000 ms, the retry wrapper maxRetries 3,
    base delay 500 ms, multiplier 2 and maximum delay 10000 ms.  The values
    failureThreshold 3 and maxRetries 2 are what the OpenAI, Deepgram and
    ElevenLabs adapters pass as overrides, with base delay 500 ms (OpenAI,
    Deepgram) or 1000 ms (ElevenLabs), successThreshold 2 and multiplier 2. *)
Theorem resilience_parameters :
  (forall nm,
      Adapters.effectiveCircuitOptions nm Circuit.noOverrides
      = {| Circuit.cname := nm; Circuit.failureThreshold := 5;
           Circuit.successThreshold := 2; Circuit.timeout := 30000 |})
  /\ (let o := Adapters.effectiveRetryOptions Retry.noOverrides in
      Retry.maxRetries o = 3 /\ Retry.baseDelayMs o = 500%Q
      /\ Retry.backoffMultiplier o = 2%Q /\ Retry.maxDelayMs o = 10000%Q)
  /\ (forall nm o,
        In (nm, o) [("openai", OpenAI.openaiCircuitOptions);
                    ("deepgram", Adapters.deepgramCircuitOptions);
                    ("elevenlabs", Adapters.elevenLabsCircuitOptions)] ->
        Circuit.failureThreshold (Adapters.effectiveCircuitOptions nm o) = 3
        /\ Circuit.successThreshold (Adapters.effectiveCircuitOptions nm o) = 2)
  /\ (forall o,
        In o [OpenAI.openaiRetryOptions; Adapters.deepgramRetryOptions;
              Adapters.elevenLabsRetryOptions] ->
        let e := Adapters.effectiveRetryOptions o in
        Retry.maxRetries e = 2 /\ Retry.backoffMultiplier e = 2%Q
        /\ (Retry.baseDelayMs e = 500%Q \/ Retry.baseDelayMs e = 1000%Q)).
Proof.
  split; [intros nm; reflexivity|].
  split; [cbv; auto|].
  split.
  - intros nm o Hin. cbn [In] in Hin.
    destruct Hin as [H | [H | [H | []]]]; inversion H; subst; split; reflexivity.
  - intros o Hin. cbn [In] in Hin.
    destruct Hin as [H | [H | [H | []]]]; subst o; cbv; auto.
Qed.

Lemma resilience_parameters_witness :
  Circuit.failureThreshold
    (Adapters.effectiveCircuitOptions "openai" OpenAI.openaiCircuitOptions) = 3.
Proof.
  exact (proj1 (proj1 (proj2 (proj2 resilience_parameters)) "openai"
                  OpenAI.openaiCircuitOptions (or_introl eq_refl))).
Defined.

(** ** The silence timer *)




(** ** The circuit breaker *)

Section CircuitFacts.
Context {W : Type} {RT : Runtime W} {T : Type}.
Import Circuit.

Implicit Types (cb : CircuitBreaker) (fn : W -> result T * W) (w : W)
               (fns : list (W -> result T * W)).

Lemma preflight_not_open cb t :
  state cb <> OPEN -> preflight cb t = (cb, None).
Proof.
  unfold preflight. destruct cb as [st f sc lt o]. cbn.
  destruct st; cbn; congruence.
Qed.

Lemma execute_passes cb fn w :
  state cb <> OPEN ->
  execute cb fn w =
  match fn w with
  | (Returned v, w') => (Returned v, onSuccess cb, w')
  | (Thrown e, w') => (Thrown e, onFailure cb (now w'), w')
  end.
Proof. intros H. unfold execute. rewrite preflight_not_open by exact H. reflexivity. Qed.





Lemma execute_keeps_counters cb fn w :
  1 <= failureThreshold (options cb) ->
  1 <= successThreshold (options cb) ->
  counters_in_range cb ->
  counters_in_range (snd (fst (execute cb fn w)))
  /\ options (snd (fst (execute cb fn w))) = options cb.
Proof.
  unfold counters_in_range, execute, preflight, shouldAttemptReset, onSuccess,
    onFailure.
  destruct cb as [st f sc lt o]. cbn. intros HF HS (Hc & Hh & Hf & Hs).
  destruct st; cbn;
    repeat match goal with
           | |- context [if ?b then _ else _] => destruct b eqn:?; cbn
           | |- context [match fn w with _ => _ end] => destruct (fn w) as [[?|?] ?]; cbn
           end;
    repeat split; intros; try discriminate; try lia.
  all: try (specialize (Hc eq_refl)); try (specialize (Hh eq_refl)).
  all: repeat match goal with
              | H : (_ >=? _) = false |- _ => apply Z.geb_leb, Z.leb_gt in H
              end; lia.
Qed.

Lemma reachable_counters_in_range :
  forall fns cb w,
    1 <= failureThreshold (options cb) ->
    1 <= successThreshold (options cb) ->
    counters_in_range cb ->
    counters_in_range (fst (executeAll cb fns w)).
Proof.
  induction fns as [|fn rest IH]; intros cb w HF HS Hin; [exact Hin|].
  cbn [Circuit.executeAll].
  pose proof (execute_keeps_counters cb fn w HF HS Hin) as [Hk Ho].
  destruct (execute cb fn w) as [[r cb1] w1]. cbn in Hk, Ho.
  apply IH; [rewrite Ho; assumption .. | exact Hk].
Qed.


End CircuitFacts.


(** ** The retry wrapper *)

(** One iteration of the loop. *)
Lemma retryLoop_step {X : Type} {RX : Runtime X} {T : Type}
      (fn : X -> result T * X) (opts : Retry.RetryOptions) fuel attempt lastError x :
  Retry.retryLoop fn opts (S fuel) attempt lastError x =
  match fn x with
  | (Returned v, x1) => (Returned v, x1)
  | (Thrown error, x1) =>
      if Z.of_nat attempt =? Retry.maxRetries opts then (Thrown error, x1)
      else
        match error with
        | Null => (Thrown (ErrorObj Retry.TypeError_null), x1)
        | ErrorObj e =>
            if negb (Retry.isRetryable e
                       (match Retry.retryableErrors opts with
                        | Some l => l | None => [] end))
            then (Thrown error, x1)
            else
              let (rnd, x2) := random x1 in
              Retry.retryLoop fn opts fuel (S attempt) error
                              (sleep (Retry.calculateDelay attempt opts rnd) x2)
        end
  end.
Proof. reflexivity. Qed.

Section RetryFacts.
Context {W : Type} {RT : Runtime W} {T : Type}.
Import Retry.

Variable behaviour : nat -> W -> result T * W.
Variable opts : RetryOptions.

Let retryable (e : Error) : bool :=
  isRetryable e (match retryableErrors opts with Some l => l | None => [] end).



End RetryFacts.

(** Back-off delays. *)







(** ** The generation stream *)

Section StreamFacts.
Context {L : Type}.
Import OpenAI.

Variable config : StreamLLMConfig L.

(** What the loop has done when it stops, whichever way it stops: it has
    passed a prefix of the tokens to [onToken] and nothing else. *)
Lemma consume_prefix :
  forall cs st,
    exists heardTokens later,
      tokensOf cs = (heardTokens ++ later)%list
      /\ match consume config cs st with
         | inl st' => heard st' = hear config heardTokens (heard st)
         | inr st' => heard st' = hear config heardTokens (heard st)
                      /\ later = []
                      /\ elapsed st' = elapsed st + sumDelays cs
                      /\ lastUsage st' = usageOf cs (lastUsage st)
         end.
Proof.
  induction cs as [|[delay chunk] rest IH]; intros st.
  - exists [], []. cbn. auto using Z.add_0_r with zarith.
  - cbn [consume tokensOf sumDelays fold_right fst usageOf].
    destruct (elapsed st + delay >=? STREAM_TIMEOUT_MS).
    + exists []. eexists. split; [reflexivity | reflexivity].
    + set (st1 := Build_LoopState _ _ _ _).
      destruct (IH st1) as (toks & later & Hsplit & Hres).
      assert (Hheard : heard st1
                       = hear config
                           (match content chunk with
                            | Some t => if JsString.truthy t then [t] else []
                            | None => []
                            end) (heard st)).
      { subst st1. cbn [heard]. destruct (content chunk) as [t|]; cbn;
          [destruct (JsString.truthy t)|]; reflexivity. }
      assert (Hsum : elapsed st1 + sumDelays rest
                     = elapsed st + (delay + sumDelays rest))
        by (subst st1; cbn [elapsed]; unfold sumDelays; lia).
      assert (Husage : lastUsage st1
                       = match usage chunk with
                         | Some u => Some u | None => lastUsage st end)
        by reflexivity.
      exists ((match content chunk with
               | Some t => if JsString.truthy t then [t] else []
               | None => []
               end) ++ toks)%list, later.
      split.
      * rewrite <- app_assoc, <- Hsplit.
        destruct (content chunk) as [t|]; [destruct (JsString.truthy t)|];
          reflexivity.
      * unfold hear in *. rewrite fold_left_app.
        destruct (consume config rest st1) as [st'|st'].
        -- rewrite Hres, Hheard. reflexivity.
        -- destruct Hres as (Hh & Hl & He & Hu).
           rewrite Hh, Hheard, He, Hu, Hsum, Husage. unfold sumDelays. auto.
Qed.

(** A request that ends in time is consumed to its end. *)
Lemma consume_in_time :
  forall cs st,
    Forall (fun c => 0 <= fst c) cs ->
    elapsed st + sumDelays cs < STREAM_TIMEOUT_MS ->
    exists st', consume config cs st = inr st'.
Proof.
  induction cs as [|[delay chunk] rest IH]; intros st Hpos Hlt.
  - eexists. reflexivity.
  - inversion Hpos as [|? ? Hd Hrest]; subst. cbn [fst] in Hd.
    cbn [consume]. cbn [sumDelays fold_right fst] in Hlt.
    assert (0 <= sumDelays rest).
    { clear -Hrest. induction Hrest as [|[d c] r Hd _ IHr]; cbn; [lia|].
      cbn [fst] in *. unfold sumDelays in IHr. lia. }
    unfold sumDelays in *.
    destruct (Z.geb_spec (elapsed st + delay) STREAM_TIMEOUT_MS); [lia|].
    apply IH; [exact Hrest|]. cbn [elapsed]. unfold sumDelays. lia.
Qed.


(** A request that ends in time with an error rejects with that error
    (an abort with the timeout error) after every token was heard. *)
Lemma stream_fails (sid : string) (w : World L) (e : Error) :
  inTime (upstream w (requests w)) ->
  ending (upstream w (requests w)) = Fails e ->
  streamLLMWithTracking config sid w
  = (Thrown (ErrorObj (rethrow e)),
     {| clock := clock w + duration (upstream w (requests w));
        draws := draws w; drawn := drawn w; upstream := upstream w;
        requests := S (requests w); costs := costs w;
        listener := hear config (tokensOf (chunks (upstream w (requests w))))
                         (listener w) |}).
Proof.
  intros (Hpos & Hend & Hlt) Hfail. unfold streamLLMWithTracking, duration in *.
  set (a := upstream w (requests w)) in *.
  cbn [clock draws drawn upstream requests costs listener].
  set (st0 := Build_LoopState _ _ _ _).
  destruct (consume_in_time (chunks a) st0 Hpos) as (st' & Hc).
  { cbn [elapsed st0]. lia. }
  destruct (consume_prefix (chunks a) st0) as (toks & later & Hsplit & Hres).
  rewrite Hc in *. destruct Hres as (Hh & -> & He & _).
  rewrite app_nil_r in Hsplit. subst toks. rewrite He. cbn [elapsed st0].
  destruct (Z.geb_spec (0 + sumDelays (chunks a) + endDelay a) STREAM_TIMEOUT_MS);
    [lia|].
  rewrite Hfail, Hh. unfold set_clock, set_listener. cbn. reflexivity.
Qed.

(** A request that completes in time resolves after every token was heard
    and [onDone] was called with the usage reported. *)
Lemma stream_completes (sid : string) (w : World L) :
  inTime (upstream w (requests w)) ->
  ending (upstream w (requests w)) = Completes ->
  exists entry,
    streamLLMWithTracking config sid w
    = (Returned tt,
       {| clock := clock w + duration (upstream w (requests w));
          draws := draws w; drawn := drawn w; upstream := upstream w;
          requests := S (requests w); costs := (costs w ++ [entry])%list;
          listener :=
            onDone config (usageOf (chunks (upstream w (requests w))) None)
              (hear config (tokensOf (chunks (upstream w (requests w))))
                    (listener w)) |}).
Proof.
  intros (Hpos & Hend & Hlt) Hok. unfold streamLLMWithTracking, duration in *.
  set (a := upstream w (requests w)) in *.
  cbn [clock draws drawn upstream requests costs listener].
  set (st0 := Build_LoopState _ _ _ _).
  destruct (consume_in_time (chunks a) st0 Hpos) as (st' & Hc).
  { cbn [elapsed st0]. lia. }
  destruct (consume_prefix (chunks a) st0) as (toks & later & Hsplit & Hres).
  rewrite Hc in *. destruct Hres as (Hh & -> & He & Hu).
  rewrite app_nil_r in Hsplit. subst toks. rewrite He. cbn [elapsed st0].
  destruct (Z.geb_spec (0 + sumDelays (chunks a) + endDelay a) STREAM_TIMEOUT_MS);
    [lia|].
  rewrite Hok, Hh, Hu. eexists. reflexivity.
Qed.

End StreamFacts.

(** Reduce the projections of a world. *)
Ltac world_cbn :=
  cbn [OpenAI.clock OpenAI.draws OpenAI.drawn OpenAI.upstream OpenAI.requests
       OpenAI.costs OpenAI.listener OpenAI.set_clock OpenAI.set_listener] in *.

(** [streamLLMResponse] when the first request fails with a retryable
    error and the second completes: one retry, and the listener has heard
    the tokens of both requests. *)
Lemma streamLLMResponse_retries_once {L : Type}
      (config : OpenAI.StreamLLMConfig L) (circuit : Circuit.CircuitBreaker)
      (w : OpenAI.World L) (e : Error) :
  let a0 := OpenAI.upstream w (OpenAI.requests w) in
  let a1 := OpenAI.upstream w (S (OpenAI.requests w)) in
  Circuit.state circuit <> Circuit.OPEN ->
  OpenAI.inTime a0 -> OpenAI.ending a0 = OpenAI.Fails e ->
  Retry.isRetryable (OpenAI.rethrow e) OpenAI.openaiRetryableErrors = true ->
  OpenAI.inTime a1 -> OpenAI.ending a1 = OpenAI.Completes ->
  exists w',
    OpenAI.streamLLMResponse config circuit w
    = (Returned tt, Circuit.onSuccess circuit, w')
    /\ OpenAI.requests w' = S (S (OpenAI.requests w))
    /\ OpenAI.listener w'
       = OpenAI.onDone config (OpenAI.usageOf (OpenAI.chunks a1) None)
           (OpenAI.hear config (OpenAI.tokensOf (OpenAI.chunks a1))
              (OpenAI.hear config (OpenAI.tokensOf (OpenAI.chunks a0))
                 (OpenAI.listener w))).
Proof.
  intros a0 a1 Hst Hin0 Hfail Hretry Hin1 Hok.
  unfold OpenAI.streamLLMResponse. rewrite execute_passes by exact Hst.
  unfold Retry.withRetry.
  change (Z.to_nat (Retry.maxRetries
                      (Retry.spread Retry.DEFAULT_OPTIONS OpenAI.openaiRetryOptions) + 1))
    with 3%nat.
  rewrite retryLoop_step.
  rewrite (stream_fails config _ w e Hin0 Hfail).
  change (Z.of_nat 0 =? Retry.maxRetries
                          (Retry.spread Retry.DEFAULT_OPTIONS OpenAI.openaiRetryOptions))
    with false.
  cbv iota.
  change (match Retry.retryableErrors
                  (Retry.spread Retry.DEFAULT_OPTIONS OpenAI.openaiRetryOptions) with
          | Some l => l | None => [] end)
    with OpenAI.openaiRetryableErrors.
  rewrite Hretry. cbn [negb random sleep OpenAI.Runtime_World].
  world_cbn.
  rewrite retryLoop_step.
  match goal with
  | |- context [OpenAI.streamLLMWithTracking config ?sid ?w2] =>
      destruct (stream_completes config sid w2 Hin1 Hok) as (entry & Hrun);
      rewrite Hrun
  end.
  eexists. split; [reflexivity|].
  world_cbn.
  split; reflexivity.
Qed.


(** ** The pipeline run of a session *)

Lemma onToken_session (tok : string) (s : VoiceSession.Session) :
  let s' := VoiceSession.onToken tok s in
  VoiceSession.fullResponse s' = VoiceSession.fullResponse s ++ tok
  /\ VoiceSession.awaitingParse s' = VoiceSession.awaitingParse s
  /\ VoiceSession.conversationHistory s' = VoiceSession.conversationHistory s
  /\ VoiceSession.isProcessing s' = VoiceSession.isProcessing s
  /\ VoiceSession.currentTranscript s' = VoiceSession.currentTranscript s
  /\ VoiceSession.silenceTimer s' = VoiceSession.silenceTimer s
  /\ (VoiceSession.ttsReady s ->
      VoiceSession.ttsReady s'
      /\ VoiceSession.trace s' = (VoiceSession.trace s ++ [VoiceSession.TtsAddText tok])%list).
Proof.
  unfold VoiceSession.onToken, VoiceSession.addTTSText, VoiceSession.ttsReady.
  destruct_session s. session_cbn.
  destruct au as [[dg [|] chars stt]|]; session_cbn;
    (do 6 (split; [reflexivity|]));
    intros (a & Ha & Ht);
    first [ discriminate Ha
          | injection Ha as <-; discriminate Ht
          | split; [eexists; split; reflexivity | reflexivity] ].
Qed.

Lemma hear_session (p : string) (s0 : VoiceSession.Session) :
  forall toks s,
    let s' := OpenAI.hear (VoiceSession.llmConfig p s0) toks s in
    VoiceSession.fullResponse s' = fold_left String.append toks (VoiceSession.fullResponse s)
    /\ VoiceSession.awaitingParse s' = VoiceSession.awaitingParse s
    /\ VoiceSession.conversationHistory s' = VoiceSession.conversationHistory s
    /\ VoiceSession.isProcessing s' = VoiceSession.isProcessing s
    /\ (VoiceSession.ttsReady s ->
        VoiceSession.ttsReady s'
        /\ VoiceSession.trace s'
           = (VoiceSession.trace s ++ map VoiceSession.TtsAddText toks)%list).
Proof.
  induction toks as [|tok toks IH]; intros s.
  - cbn. rewrite app_nil_r. repeat split; auto.
  - cbn [OpenAI.hear fold_left map]. cbn [VoiceSession.llmConfig OpenAI.onToken].
    destruct (onToken_session tok s) as (Hf & Ha & Hh & Hp & _ & _ & Ht).
    specialize (IH (VoiceSession.onToken tok s)). cbn zeta in IH.
    unfold OpenAI.hear in IH. cbn [VoiceSession.llmConfig OpenAI.onToken] in IH.
    destruct IH as (IHf & IHa & IHh & IHp & IHt).
    rewrite IHf, IHa, IHh, IHp, Hf, Ha, Hh, Hp. repeat split.
    + apply IHt, Ht, H.
    + destruct (Ht H) as [Hr Htr]. destruct (IHt Hr) as [_ ->].
      rewrite Htr, <- app_assoc. reflexivity.
Qed.

Lemma onDone_session (u : option OpenAI.Usage) (s : VoiceSession.Session) :
  let s' := VoiceSession.onDone u s in
  VoiceSession.awaitingParse s'
  = (VoiceSession.awaitingParse s ++ [VoiceSession.fullResponse s])%list
  /\ VoiceSession.conversationHistory s' = VoiceSession.conversationHistory s
  /\ VoiceSession.isProcessing s' = VoiceSession.isProcessing s
  /\ (VoiceSession.ttsReady s ->
      VoiceSession.trace s' = (VoiceSession.trace s ++ [VoiceSession.TtsFlush])%list).
Proof.
  unfold VoiceSession.onDone, VoiceSession.flushTTS, VoiceSession.ttsReady.
  destruct_session s. session_cbn.
  destruct au as [[dg [|] chars stt]|]; session_cbn;
    (do 3 (split; [reflexivity|]));
    intros (a & Ha & Ht);
    first [ discriminate Ha
          | injection Ha as <-; discriminate Ht
          | reflexivity ].
Qed.

Lemma begin_session (text : string) (s : VoiceSession.Session) :
  VoiceSession.isProcessing s = false ->
  let s' := VoiceSession.processUserInput_begin text s in
  VoiceSession.isProcessing s' = true
  /\ VoiceSession.fullResponse s' = ""
  /\ VoiceSession.currentTranscript s' = ""
  /\ VoiceSession.awaitingParse s' = VoiceSession.awaitingParse s
  /\ VoiceSession.trace s' = VoiceSession.trace s
  /\ VoiceSession.audio s' = VoiceSession.audio s
  /\ VoiceSession.silenceTimer s' = VoiceSession.silenceTimer s
  /\ VoiceSession.conversationHistory s'
     = VoiceSession.pushHistory OpenAI.user text (VoiceSession.conversationHistory s).
Proof.
  intros Hp. unfold VoiceSession.processUserInput_begin. rewrite Hp.
  destruct_session s. session_cbn. repeat split; reflexivity.
Qed.

(** C10. When the first request of a run delivers tokens and then fails
    with a retryable error and the retry completes, nothing is rolled back:
    two requests were made, the synthesis adapter was given the tokens of
    the failed request followed by those of the retry, and the reply handed
    on for parsing is the concatenation of both. *)
Theorem failed_attempt_tokens_are_kept :
  forall (systemPrompt text : string) (circuit : Circuit.CircuitBreaker)
         (w : OpenAI.World VoiceSession.Session) (e : Error),
    let s := OpenAI.listener w in
    let a0 := OpenAI.upstream w (OpenAI.requests w) in
    let a1 := OpenAI.upstream w (S (OpenAI.requests w)) in
    let toks0 := OpenAI.tokensOf (OpenAI.chunks a0) in
    let toks1 := OpenAI.tokensOf (OpenAI.chunks a1) in
    VoiceSession.isProcessing s = false ->
    VoiceSession.ttsReady s ->
    Circuit.state circuit <> Circuit.OPEN ->
    OpenAI.inTime a0 -> OpenAI.ending a0 = OpenAI.Fails e ->
    Retry.isRetryable (OpenAI.rethrow e) OpenAI.openaiRetryableErrors = true ->
    toks0 <> [] ->
    OpenAI.inTime a1 -> OpenAI.ending a1 = OpenAI.Completes ->
    let w' := snd (VoiceSession.processUserInput systemPrompt text circuit w) in
    OpenAI.requests w' = S (S (OpenAI.requests w))
    /\ VoiceSession.awaitingParse (OpenAI.listener w')
       = (VoiceSession.awaitingParse s
            ++ [fold_left String.append (toks0 ++ toks1) ""])%list
    /\ VoiceSession.trace (OpenAI.listener w')
       = (VoiceSession.trace s
            ++ map VoiceSession.TtsAddText (toks0 ++ toks1)
            ++ [VoiceSession.TtsFlush])%list.
Proof.
  intros systemPrompt text circuit w e s a0 a1 toks0 toks1
         Hidle Htts Hst Hin0 Hfail Hretry _ Hin1 Hok w'.
  subst w'. unfold VoiceSession.processUserInput. fold s. rewrite Hidle.
  destruct (begin_session text s Hidle) as (_ & Hfull & _ & Hparse & Htrace & Haudio & _).
  set (s1 := VoiceSession.processUserInput_begin text s) in *.
  assert (Htts1 : VoiceSession.ttsReady s1).
  { unfold VoiceSession.ttsReady in *. rewrite Haudio. exact Htts. }
  destruct (streamLLMResponse_retries_once
              (VoiceSession.llmConfig systemPrompt s1) circuit
              (OpenAI.set_listener s1 w) e Hst Hin0 Hfail Hretry Hin1 Hok)
    as (w2 & Hrun & Hreq & Hlis).
  rewrite Hrun. cbn [snd]. world_cbn.
  split; [exact Hreq|].
  rewrite Hlis. fold a0 a1 toks0 toks1.
  cbn [VoiceSession.llmConfig OpenAI.onDone].
  pose (cfg := VoiceSession.llmConfig systemPrompt s1).
  fold cfg.
  destruct (hear_session systemPrompt s1 toks0 s1) as (Hf0 & Ha0 & _ & _ & Ht0).
  fold cfg in Hf0, Ha0, Ht0.
  destruct (Ht0 Htts1) as [Hr0 Htr0].
  destruct (hear_session systemPrompt s1 toks1 (OpenAI.hear cfg toks0 s1))
    as (Hf1 & Ha1 & _ & _ & Ht1).
  fold cfg in Hf1, Ha1, Ht1.
  destruct (Ht1 Hr0) as [Hr1 Htr1].
  destruct (onDone_session (OpenAI.usageOf (OpenAI.chunks a1) None)
              (OpenAI.hear cfg toks1 (OpenAI.hear cfg toks0 s1)))
    as (Hap & _ & _ & Hfl).
  unfold VoiceSession.runResolved.
  match goal with
  | |- context [VoiceSession.set_isProcessing false ?x] =>
      assert (Hsame : VoiceSession.awaitingParse (VoiceSession.set_isProcessing false x)
                      = VoiceSession.awaitingParse x
                      /\ VoiceSession.trace (VoiceSession.set_isProcessing false x)
                         = VoiceSession.trace x)
        by (destruct x; split; reflexivity)
  end.
  destruct Hsame as [-> ->].
  rewrite Hap, (Hfl Hr1), Hf1, Hf0, Ha1, Ha0, Htr1, Htr0, Hfull, Hparse, Htrace.
  rewrite fold_left_app, map_app, <- !app_assoc. split; reflexivity.
Qed.

Lemma failed_attempt_tokens_are_kept_witness :
  let w' := snd (VoiceSession.processUserInput Samples.prompt "my sink is leaking"
                   OpenAI.openaiCircuit
                   (Samples.world Samples.breaksOnce Samples.idle)) in
  OpenAI.requests w' = 2%nat
  /\ VoiceSession.awaitingParse (OpenAI.listener w')
     = ["Sure, letSure, I can help."]
  /\ VoiceSession.trace (OpenAI.listener w')
     = [VoiceSession.TtsAddText "Sure"; VoiceSession.TtsAddText ", let";
        VoiceSession.TtsAddText "Sure, "; VoiceSession.TtsAddText "I can help.";
        VoiceSession.TtsFlush].
Proof.
  apply (failed_attempt_tokens_are_kept Samples.prompt "my sink is leaking"
           OpenAI.openaiCircuit (Samples.world Samples.breaksOnce Samples.idle)
           (newError "503 Service Unavailable")).
  - reflexivity.
  - eexists. split; reflexivity.
  - discriminate.
  - split; [|split];
      [ repeat (constructor; [cbv; discriminate|]); constructor
      | cbv; discriminate
      | reflexivity ].
  - reflexivity.
  - reflexivity.
  - discriminate.
  - split; [|split];
      [ repeat (constructor; [cbv; discriminate|]); constructor
      | cbv; discriminate
      | reflexivity ].
  - reflexivity.
Defined.

(** ** Generation timeout *)






(** ** Fragments that arrive while a run is active *)





(** ** The utterance segmenter *)




















(** ** Ending a session *)

Section EndFacts.
Import VoiceSession.




























End EndFacts.


